(** * Agent automation step: decision log, tool filtering and the [run] entry point

    Shallow embedding of
    [packages/server/src/automations/steps/ai/agent.ts].

    - JavaScript values that the code probes dynamically (message parts,
      thrown values, schemas) are an inductive type [JsValue];
    - the insertion-ordered [Map<string, number>] of the decision-log
      builder is an association list updated in place;
    - the [Set] of enabled tool names is a [gset string];
    - [run] is written in a state-and-exception monad: the state holds the
      four [let] variables that the [catch] block reads back and the trace
      of calls made to collaborators. *)

From Stdlib Require Import ZArith Sorted.
From stdpp Require Import base option strings list gmap.

Open Scope string_scope.
Open Scope list_scope.

#[local] Set Warnings "-register-all".

(** ** JavaScript values *)

Inductive JsValue : Type :=
  | JsUndefined
  | JsNull
  | JsBool (b : bool)
  | JsNumber (n : Z)
  | JsString (s : string)
  | JsArray (items : list JsValue)
  | JsObject (props : list (string * JsValue)).

(** An object literal, as [Record<string, any>]. *)
Definition JsRecord : Type := list (string * JsValue).

Module Js.

(** [ToBoolean]: what [x && ...], [!x] and [x || ...] test. *)
Definition truthy (v : JsValue) : bool :=
  match v with
  | JsUndefined | JsNull => false
  | JsBool b => b
  | JsNumber n => negb (n =? 0)%Z
  | JsString s => negb (String.eqb s "")
  | JsArray _ | JsObject _ => true
  end.

(** [typeof v === "object"] *)
Definition typeof_object (v : JsValue) : bool :=
  match v with
  | JsNull | JsArray _ | JsObject _ => true
  | _ => false
  end.

(** [typeof v === "string"] *)
Definition typeof_string (v : JsValue) : bool :=
  match v with
  | JsString _ => true
  | _ => false
  end.

Fixpoint lookup_prop (k : string) (props : JsRecord) : option JsValue :=
  match props with
  | [] => None
  | (k', v) :: rest => if String.eqb k k' then Some v else lookup_prop k rest
  end.

(** [k in v], for the own properties of an object value.  The keys probed
    by the code are ["type"] and ["toolName"], which an array does not
    have. *)
Definition has_prop (k : string) (v : JsValue) : bool :=
  match v with
  | JsObject props => bool_decide (is_Some (lookup_prop k props))
  | _ => false
  end.

(** [v.k] *)
Definition get_prop (k : string) (v : JsValue) : JsValue :=
  match v with
  | JsObject props => default JsUndefined (lookup_prop k props)
  | _ => JsUndefined
  end.

(** Truthiness of an optional string ([string | undefined]). *)
Definition truthy_str (s : option string) : bool :=
  match s with
  | Some s => negb (String.eqb s "")
  | None => false
  end.

End Js.

(** ** Data model *)

Record ToolMetadata : Type := mkTool {
  tool_name : string;
  tool_description : option string
}.

Record UIMessage : Type := mkMessage {
  msg_id : string;
  msg_role : string;
  (** [parts] is read as [assistantMessage?.parts || []]. *)
  msg_parts : option (list JsValue)
}.

Record UsedTool : Type := mkUsed { used_name : string; used_count : nat }.

Record ModelInfo : Type := mkModelInfo {
  model_id : option string;
  model_name : option string;
  model_baseUrl : option string
}.

Record AgentDecisionLog : Type := mkLog {
  log_enabledTools : option (list ToolMetadata);
  log_usedTools : option (list UsedTool);
  log_model : option ModelInfo
}.

(** ** [Map<string, number>] with insertion order *)

Module CountMap.

Definition t : Type := list (string * nat).

Definition empty : t := [].

Fixpoint get (k : string) (m : t) : option nat :=
  match m with
  | [] => None
  | (k', v) :: rest => if String.eqb k k' then Some v else get k rest
  end.

(** [Map.prototype.set]: an existing key keeps its position, a new key
    goes last. *)
Fixpoint set (k : string) (v : nat) (m : t) : t :=
  match m with
  | [] => [(k, v)]
  | (k', v') :: rest =>
      if String.eqb k k' then (k, v) :: rest else (k', v') :: set k v rest
  end.

Definition entries (m : t) : list (string * nat) := m.

End CountMap.

(** ** [buildAgentDecisionLog] *)

(** Lines 40-41: the [type] of a part when the part is an object that has
    one, [undefined] otherwise. *)
Definition partType (part : JsValue) : JsValue :=
  if Js.truthy part && Js.typeof_object part && Js.has_prop "type" part
  then Js.get_prop "type" part
  else JsUndefined.

(** Lines 42-45. *)
Definition isToolPartType (partType : JsValue) : bool :=
  match partType with
  | JsString t => String.prefix "tool-" t || String.eqb t "dynamic-tool"
  | _ => false
  end.

(** Lines 46-49. *)
Definition partToolName (part : JsValue) : JsValue :=
  if Js.has_prop "toolName" part && Js.typeof_string (Js.get_prop "toolName" part)
  then Js.get_prop "toolName" part
  else JsUndefined.

(** One iteration of the loop of lines 39-55. *)
Definition countPart (toolCallCounts : CountMap.t) (part : JsValue) : CountMap.t :=
  if isToolPartType (partType part) then
    match partToolName part with
    | JsString toolName =>
        if negb (Js.truthy (JsString toolName)) then toolCallCounts
        else CountMap.set toolName
               (default 0 (CountMap.get toolName toolCallCounts) + 1)
               toolCallCounts
    | _ => toolCallCounts
    end
  else toolCallCounts.

Definition messageParts (assistantMessage : option UIMessage) : list JsValue :=
  default [] (assistantMessage ≫= msg_parts).

Definition countToolCalls (assistantMessage : option UIMessage) : CountMap.t :=
  foldl countPart CountMap.empty (messageParts assistantMessage).

Definition buildAgentDecisionLog
    (enabledTools : option (list ToolMetadata))
    (assistantMessage : option UIMessage)
    (modelId modelName baseUrl : option string) : AgentDecisionLog :=
  let toolCallCounts := countToolCalls assistantMessage in
  let usedTools :=
    map (fun '(name, count) => mkUsed name count) (CountMap.entries toolCallCounts) in
  {| log_enabledTools := enabledTools;
     log_usedTools := if (0 <? length usedTools)%nat then Some usedTools else None;
     log_model :=
       if Js.truthy_str modelId || Js.truthy_str modelName || Js.truthy_str baseUrl
       then Some (mkModelInfo modelId modelName baseUrl)
       else None |}.

(** ** Inputs, outputs and collaborators of [run] *)

Record AgentStepInputs : Type := mkInputs {
  agentId : option string;
  prompt : option string;
  useStructuredOutput : option bool;
  outputSchema : option JsRecord
}.

Record Usage : Type := mkUsage {
  inputTokens : option nat;
  outputTokens : option nat;
  totalTokens : option nat
}.

Record AgentStepOutputs : Type := mkOutputs {
  success : bool;
  response : string;
  usage : option Usage;
  message : option UIMessage;
  output : option JsRecord;
  agentTrace : option AgentDecisionLog
}.

Record AgentConfig : Type := mkAgent {
  agent_name : string;
  agent_aiconfig : string;
  agent_enabledTools : option (list string);
  agent_live : option bool
}.

Record ModelConfig : Type := mkModel {
  mc_modelId : string;
  mc_modelName : string;
  mc_baseUrl : string;
  mc_apiKey : string
}.

(** What a call that may throw gives back. *)
Inductive Result (A : Type) : Type :=
  | Ok (a : A)
  | Throw (err : JsValue).
Arguments Ok {A} a.
Arguments Throw {A} err.

(** The settings object handed to [new ToolLoopAgent]. *)
Record AgentSettings : Type := mkSettings {
  set_model : string;
  set_instructions : option string;
  set_tools : JsRecord;
  set_stopWhen : nat;
  set_providerOptions : string;
  set_output : option JsRecord
}.

(** What [agent.stream] resolves to: the message snapshots that reading the
    UI message stream yields, an exception raised while it is read (after
    those snapshots), and the three promises awaited afterwards. *)
Record StreamResult : Type := mkStream {
  sr_messages : list UIMessage;
  sr_streamError : option JsValue;
  sr_text : Result string;
  sr_usage : Result Usage;
  sr_output : Result JsRecord
}.

(** Everything [run] imports: the agent and model-config stores, the
    backend client, the helpers and the process environment. *)
Record Collaborators : Type := mkWorld {
  v4 : string;
  isProdWorkspaceID : string -> bool;
  getError : JsValue -> string;
  isInThread : bool;
  FORKED_PROCESS_NAME : option string;
  LITELLM_URL : option string;
  getOrThrow : string -> Result AgentConfig;
  getAvailableToolsMetadata : string -> Result (list ToolMetadata);
  buildPromptAndTools : AgentConfig -> Result (string * JsRecord);
  getLiteLLMModelConfigOrThrow : string -> Result ModelConfig;
  createLiteLLMOpenAI : string -> string -> string -> Result unit;
  normalizeSchemaForStructuredOutput : JsRecord -> Result JsRecord;
  agentStream : AgentSettings -> string -> Result StreamResult
}.

(** Span annotations ([tracer.llmobs.annotate]). *)
Inductive Annotation : Type :=
  | AnnInput (inputData agentId agentName : string) (appId : option string)
      (isForkedProcess : bool) (forkedProcessName : string)
  | AnnPaused
  | AnnModel (modelId modelName baseUrl : string) (envLiteLLMUrl : option string)
      (toolCount : nat)
  | AnnOutput (outputData : string) (stepCount : nat)
  | AnnError (outputData : string) (errorType : JsValue).

(** Calls that leave the step, in the order they are made. *)
Inductive Call : Type :=
  | CallV4
  | CallTrace (sessionId : string)
  | CallAnnotate (a : Annotation)
  | CallGetOrThrow (agentId : string)
  | CallGetAvailableToolsMetadata (aiconfig : string)
  | CallBuildPromptAndTools (agentName : string)
  | CallGetLiteLLMModelConfigOrThrow (aiconfig : string)
  | CallCreateLiteLLMOpenAI (apiKey baseUrl sessionId : string)
  | CallNormalizeSchema
  | CallAgentStream (settings : AgentSettings) (prompt : string)
  | CallConsoleError (agentId : string) (appId : option string)
      (liteLLMUrl : option string) (errorName : JsValue) (errorMessage : string).

(** A call that opens a span or draws a session id. *)
Definition isTracingCall (c : Call) : bool :=
  match c with
  | CallV4 | CallTrace _ | CallAnnotate _ => true
  | _ => false
  end.

(** A call to the agent store or the model-config store. *)
Definition isStoreCall (c : Call) : bool :=
  match c with
  | CallGetOrThrow _ | CallGetAvailableToolsMetadata _
  | CallBuildPromptAndTools _ | CallGetLiteLLMModelConfigOrThrow _ => true
  | _ => false
  end.

(** A call that builds or uses the model-backend client. *)
Definition isBackendCall (c : Call) : bool :=
  match c with
  | CallCreateLiteLLMOpenAI _ _ _ | CallAgentStream _ _ => true
  | _ => false
  end.

(** ** The monad [run] is written in *)

Record RunState : Type := mkState {
  st_enabledTools : option (list ToolMetadata);
  st_modelId : option string;
  st_modelName : option string;
  st_baseUrl : option string;
  st_calls : list Call
}.

Definition initialState : RunState :=
  {| st_enabledTools := None; st_modelId := None; st_modelName := None;
     st_baseUrl := None; st_calls := [] |}.

Definition M (A : Type) : Type := RunState -> Result A * RunState.

#[global] Instance M_ret : MRet M := fun A a st => (Ok a, st).

#[global] Instance M_bind : MBind M := fun A B f m st =>
  match m st with
  | (Ok a, st') => f a st'
  | (Throw err, st') => (Throw err, st')
  end.

Definition getState : M RunState := fun st => (Ok st, st).

Definition modifyState (f : RunState -> RunState) : M unit :=
  fun st => (Ok tt, f st).

Definition pushCall (c : Call) (st : RunState) : RunState :=
  {| st_enabledTools := st_enabledTools st; st_modelId := st_modelId st;
     st_modelName := st_modelName st; st_baseUrl := st_baseUrl st;
     st_calls := st_calls st ++ [c] |}.

Definition logCall (c : Call) : M unit := modifyState (pushCall c).

Definition liftResult {A} (r : Result A) : M A := fun st => (r, st).

(** Make the call [c], whose result is [r]. *)
Definition perform {A} (c : Call) (r : Result A) : M A :=
  logCall c ≫= fun _ => liftResult r.

Definition annotate (a : Annotation) : M unit := logCall (CallAnnotate a).

(** [try { body } catch (err) { handler }]: the handler runs in the state
    the body had reached. *)
Definition tryCatch {A} (body : M A) (handler : JsValue -> M A) : M A :=
  fun st =>
    match body st with
    | (Ok a, st') => (Ok a, st')
    | (Throw err, st') => handler err st'
    end.

Definition assignEnabledTools (v : list ToolMetadata) : M unit :=
  modifyState (fun st =>
    {| st_enabledTools := Some v; st_modelId := st_modelId st;
       st_modelName := st_modelName st; st_baseUrl := st_baseUrl st;
       st_calls := st_calls st |}).

Definition assignModel (modelId modelName baseUrl : string) : M unit :=
  modifyState (fun st =>
    {| st_enabledTools := st_enabledTools st; st_modelId := Some modelId;
       st_modelName := Some modelName; st_baseUrl := Some baseUrl;
       st_calls := st_calls st |}).

(** ** [run] *)

(** Lines 114-118: the tools of the agent that are enabled. *)
Definition resolveEnabledTools
    (enabledTools : option (list string)) (allTools : list ToolMetadata)
    : list ToolMetadata :=
  let enabledToolNames : gset string := list_to_set (default [] enabledTools) in
  if (0 <? size enabledToolNames)%nat
  then filter (fun tool => tool_name tool ∈ enabledToolNames) allTools
  else allTools.

(** Line 131: [appId && isProdWorkspaceID(appId) && agentConfig.live !== true]. *)
Definition pausedInProduction
    (w : Collaborators) (appId : option string) (agentConfig : AgentConfig) : bool :=
  match appId with
  | Some workspaceId =>
      if String.eqb workspaceId "" then false
      else if isProdWorkspaceID w workspaceId
           then negb (bool_decide (agent_live agentConfig = Some true))
           else false
  | None => false
  end.

Definition pausedMessage : string :=
  "Agent is paused. Set it live to use it in published automations.".

Definition noAgentMessage : string := "Agent step failed: No agent selected".

Definition noPromptMessage : string := "Agent step failed: No prompt provided".

(** Line 188: [stepCountIs(30)]. *)
Definition maxSteps : nat := 30.

Definition failure (response : string) (agentTrace : option AgentDecisionLog)
    : AgentStepOutputs :=
  {| success := false; response := response; usage := None; message := None;
     output := None; agentTrace := agentTrace |}.

(** Lines 170-181: the output constraint handed to the agent, if any. *)
Definition buildOutputOption (w : Collaborators) (inputs : AgentStepInputs)
    : M (option JsRecord) :=
  match useStructuredOutput inputs, outputSchema inputs with
  | Some true, Some schema =>
      if (0 <? length (map fst schema))%nat then
        normalizedSchema ←
          perform CallNormalizeSchema (normalizeSchemaForStructuredOutput w schema);
        mret (Some normalizedSchema)
      else mret None
  | _, _ => mret None
  end.

(** Lines 197-202: the last snapshot the stream yields, unless reading it
    throws. *)
Definition readUIMessageStream (streamResult : StreamResult)
    : Result (option UIMessage) :=
  let assistantMessage :=
    foldl (fun _ uiMessage => Some uiMessage) None (sr_messages streamResult) in
  match sr_streamError streamResult with
  | Some err => Throw err
  | None => Ok assistantMessage
  end.

(** [x || fallback] on strings. *)
Definition orElse (s fallback : string) : string :=
  if String.eqb s "" then fallback else s.

(** Lines 110-228: the body of the [try]. *)
Definition runBody (w : Collaborators) (inputs : AgentStepInputs)
    (agentId prompt : string) (appId : option string) (sessionId : string)
    : M AgentStepOutputs :=
  agentConfig ← perform (CallGetOrThrow agentId) (getOrThrow w agentId);
  allTools ←
    perform (CallGetAvailableToolsMetadata (agent_aiconfig agentConfig))
            (getAvailableToolsMetadata w (agent_aiconfig agentConfig));
  assignEnabledTools
    (resolveEnabledTools (agent_enabledTools agentConfig) allTools);;
  annotate (AnnInput prompt agentId (agent_name agentConfig) appId
              (isInThread w) (orElse (default "" (FORKED_PROCESS_NAME w)) "main"));;
  if pausedInProduction w appId agentConfig then
    annotate AnnPaused;;
    mret (failure pausedMessage None)
  else
    '(systemPrompt, tools) ←
      perform (CallBuildPromptAndTools (agent_name agentConfig))
              (buildPromptAndTools w agentConfig);
    modelConfig ←
      perform (CallGetLiteLLMModelConfigOrThrow (agent_aiconfig agentConfig))
              (getLiteLLMModelConfigOrThrow w (agent_aiconfig agentConfig));
    let modelId := mc_modelId modelConfig in
    let modelName := mc_modelName modelConfig in
    let baseUrl := mc_baseUrl modelConfig in
    let apiKey := mc_apiKey modelConfig in
    assignModel modelId modelName baseUrl;;
    annotate (AnnModel modelId modelName baseUrl (LITELLM_URL w)
                (length (map fst tools)));;
    perform (CallCreateLiteLLMOpenAI apiKey baseUrl sessionId)
            (createLiteLLMOpenAI w apiKey baseUrl sessionId);;
    outputOption ← buildOutputOption w inputs;
    let settings :=
      {| set_model := modelId;
         set_instructions :=
           if String.eqb systemPrompt "" then None else Some systemPrompt;
         set_tools := tools;
         set_stopWhen := maxSteps;
         set_providerOptions := modelName;
         set_output := outputOption |} in
    streamResult ←
      perform (CallAgentStream settings prompt) (agentStream w settings prompt);
    assistantMessage ← liftResult (readUIMessageStream streamResult);
    responseText ← liftResult (sr_text streamResult);
    usage ← liftResult (sr_usage streamResult);
    output ←
      match outputOption with
      | Some _ => o ← liftResult (sr_output streamResult); mret (Some o)
      | None => mret None
      end;
    annotate (AnnOutput responseText
                (default 0%nat (length <$> (assistantMessage ≫= msg_parts))));;
    st ← getState;
    mret {| success := true;
            response := responseText;
            usage := Some usage;
            message := assistantMessage;
            output := output;
            agentTrace :=
              Some (buildAgentDecisionLog (st_enabledTools st) assistantMessage
                      (st_modelId st) (st_modelName st) (st_baseUrl st)) |}.

(** [err?.name] *)
Definition errorName (err : JsValue) : JsValue := Js.get_prop "name" err.

(** Lines 229-258: the [catch] block. *)
Definition onError (w : Collaborators) (agentId : string) (appId : option string)
    (err : JsValue) : M AgentStepOutputs :=
  let errorMessage := getError w err in
  annotate (AnnError errorMessage
              (if Js.truthy (errorName err) then errorName err
               else JsString "UnknownError"));;
  logCall (CallConsoleError agentId appId (LITELLM_URL w) (errorName err)
             errorMessage);;
  st ← getState;
  mret (failure errorMessage
          (Some (buildAgentDecisionLog (st_enabledTools st) None
                   (st_modelId st) (st_modelName st) (st_baseUrl st)))).

(** [x] when [x] is a non-empty string, for [if (!x)] on [string | undefined]. *)
Definition present (x : option string) : option string :=
  match x with
  | Some s => if String.eqb s "" then None else Some s
  | None => None
  end.

Definition run (w : Collaborators) (inputs : AgentStepInputs)
    (appId : option string) : M AgentStepOutputs :=
  match present (agentId inputs) with
  | None => mret (failure noAgentMessage None)
  | Some agentId =>
      match present (prompt inputs) with
      | None => mret (failure noPromptMessage None)
      | Some prompt =>
          logCall CallV4;;
          let sessionId := v4 w in
          logCall (CallTrace sessionId);;
          tryCatch (runBody w inputs agentId prompt appId sessionId)
                   (onError w agentId appId)
      end
  end.

(** The state in which the [try] block starts: a session id has been drawn
    and the span is open. *)
Definition spanState (w : Collaborators) : RunState :=
  pushCall (CallTrace (v4 w)) (pushCall CallV4 initialState).

(** One invocation of the step: what it returns and the calls it made. *)
Definition invoke (w : Collaborators) (inputs : AgentStepInputs)
    (appId : option string) : Result AgentStepOutputs * list Call :=
  let '(r, st) := run w inputs appId initialState in (r, st_calls st).

(** ** The tool loop behind [agent.stream] *)

Module ToolLoop.

(** What the model backend answers to one call. *)
Inductive ModelReply : Type :=
  | FinalAnswer (text : string)
  | ToolCallRequest (toolName : string) (input : JsValue)
  | BackendFailure (err : JsValue).

Inductive Part : Type :=
  | TextPart (text : string)
  | ToolPart (toolName : string) (input result : JsValue).

Inductive Status : Type :=
  | DONE
  | ABORTED
  | FAILED (err : JsValue).

Record Outcome : Type := mkOutcome {
  status : Status;
  finalMessage : list Part;
  modelCalls : nat
}.

Section Loop.

Variable backend : string -> list Part -> ModelReply.
Variable runTool : string -> JsValue -> JsValue.

(** Modelled from the spec: the loop of [ToolLoopAgent] with
    [stopWhen: stepCountIs(n)], which lives in the [ai] package and not
    in this repository.  Section 4.4: after each tool call the model is
    called again with the tool result appended to the context, until the
    model gives a final answer or the step bound is reached, whichever
    comes first; reaching the bound is not an error, the loop stops and
    the last produced state is the final message.  [remaining] is the
    number of steps still allowed, [parts] the message so far and
    [steps] the number of model round-trips made. *)
Fixpoint loop (remaining : nat) (prompt : string) (parts : list Part)
    (steps : nat) : Outcome :=
  match remaining with
  | O => mkOutcome ABORTED parts steps
  | S remaining' =>
      match backend prompt parts with
      | FinalAnswer text => mkOutcome DONE (parts ++ [TextPart text]) (S steps)
      | ToolCallRequest toolName input =>
          loop remaining' prompt
               (parts ++ [ToolPart toolName input (runTool toolName input)])
               (S steps)
      | BackendFailure err => mkOutcome (FAILED err) parts (S steps)
      end
  end.

Definition stream (settings : AgentSettings) (prompt : string) : Outcome :=
  loop (set_stopWhen settings) prompt [] 0.

(** A backend that asks for another tool call whatever the context. *)
Definition greedy (prompt : string) : Prop :=
  forall parts, exists toolName input,
    backend prompt parts = ToolCallRequest toolName input.

End Loop.

End ToolLoop.

(** ** The decision log as the specification words it *)

(** The distinct names of a list, in the order they are first seen. *)
Fixpoint firstSeen (names : list string) : list string :=
  match names with
  | [] => []
  | n :: rest => n :: filter (fun m => m ≠ n) (firstSeen rest)
  end.

Definition occurrences (n : string) (names : list string) : nat :=
  length (filter (fun m => m = n) names).

(** Name-to-count histogram, in first-seen order. *)
Definition histogram (names : list string) : list UsedTool :=
  map (fun n => mkUsed n (occurrences n names)) (firstSeen names).

(** A part that identifies as a tool invocation and carries a string tool
    name. *)
Definition statedToolName (part : JsValue) : option string :=
  if isToolPartType (partType part) then
    match Js.get_prop "toolName" part with
    | JsString toolName => Some toolName
    | _ => None
    end
  else None.

(** [usedTools] as stated: the histogram of the parts above, omitted when
    empty. *)
Definition statedUsedTools (assistantMessage : option UIMessage)
    : option (list UsedTool) :=
  match histogram (omap statedToolName (messageParts assistantMessage)) with
  | [] => None
  | h => Some h
  end.

(** The same with the tool name required to be a non-empty string. *)
Definition countedToolName (part : JsValue) : option string :=
  match statedToolName part with
  | Some toolName => if String.eqb toolName "" then None else Some toolName
  | None => None
  end.

Definition countedUsedTools (assistantMessage : option UIMessage)
    : option (list UsedTool) :=
  match histogram (omap countedToolName (messageParts assistantMessage)) with
  | [] => None
  | h => Some h
  end.

(** ** When [run] returns without a decision log *)

Definition validationFails (inputs : AgentStepInputs) : bool :=
  match present (agentId inputs), present (prompt inputs) with
  | Some _, Some _ => false
  | _, _ => true
  end.

(** The agent and its tools resolve and the paused check of line 131 fires. *)
Definition refusedAsPaused (w : Collaborators) (inputs : AgentStepInputs)
    (appId : option string) : bool :=
  match present (agentId inputs), present (prompt inputs) with
  | Some agentId, Some _ =>
      match getOrThrow w agentId with
      | Ok agentConfig =>
          match getAvailableToolsMetadata w (agent_aiconfig agentConfig) with
          | Ok _ => pausedInProduction w appId agentConfig
          | Throw _ => false
          end
      | Throw _ => false
      end
  | _, _ => false
  end.

(** The structured-output condition as the specification words it:
    [useStructuredOutput] is true and [outputSchema] is a non-empty object. *)
Definition structuredOutputRequested (inputs : AgentStepInputs) : Prop :=
  useStructuredOutput inputs = Some true ∧
  ∃ schema, outputSchema inputs = Some schema ∧ schema ≠ [].

(** ** Sample collaborators *)

Module Sample.

Definition search : ToolMetadata := mkTool "search" (Some "Search the web").
Definition calculator : ToolMetadata := mkTool "calculator" None.
Definition mailer : ToolMetadata := mkTool "mailer" (Some "Send an email").

Definition allTools : list ToolMetadata := [search; calculator; mailer].

Definition liveAgent : AgentConfig :=
  mkAgent "Support" "aiconfig_1" (Some ["search"; "mailer"]) (Some true).

Definition pausedAgent : AgentConfig :=
  mkAgent "Support" "aiconfig_1" None (Some false).

Definition model : ModelConfig :=
  mkModel "model_1" "gpt" "http://litellm:4000" "sk-1".

Definition toolPart (toolName : string) : JsValue :=
  JsObject [("type", JsString "dynamic-tool"); ("toolName", JsString toolName);
            ("state", JsString "output-available")].

Definition textPart (text : string) : JsValue :=
  JsObject [("type", JsString "text"); ("text", JsString text)].

Definition answer : UIMessage :=
  mkMessage "msg_1" "assistant"
    (Some [toolPart "search"; toolPart "search"; toolPart "calculator";
           toolPart "search"; textPart "42"]).

(** A tool part whose [toolName] is the empty string. *)
Definition unnamedToolPart : JsValue :=
  JsObject [("type", JsString "dynamic-tool"); ("toolName", JsString "")].

Definition unnamedCall : UIMessage :=
  mkMessage "msg_2" "assistant" (Some [unnamedToolPart]).

Definition partial : UIMessage :=
  mkMessage "msg_1" "assistant" (Some [toolPart "search"]).

Definition tokens : Usage := mkUsage (Some 12) (Some 7) (Some 19).

Definition finished : StreamResult :=
  mkStream [partial; answer] None (Ok "42") (Ok tokens)
           (Ok [("answer", JsNumber 42)]).

(** A stream that breaks after the agent has already called tools. *)
Definition broken : StreamResult :=
  mkStream [partial; answer]
           (Some (JsObject [("name", JsString "APICallError");
                            ("message", JsString "connection reset")]))
           (Ok "") (Ok tokens) (Ok []).

Definition toolsDown : JsValue :=
  JsObject [("name", JsString "Error"); ("message", JsString "tools unavailable")].

(** Modelled from the spec: [automationUtils.getError] is not under
    [src/].  Section 7 has the caught error's message normalized into a
    human-readable string that is never empty; this normalizer gives the
    [message] of the thrown value when it has a non-empty one and a fixed
    text otherwise. *)
Definition normalizedMessage (err : JsValue) : string :=
  match Js.get_prop "message" err with
  | JsString m => orElse m "No error provided."
  | _ => "No error provided."
  end.

Definition isProd (workspaceId : string) : bool :=
  negb (String.prefix "app_dev_" workspaceId).

Definition world (agent : AgentConfig) (tools : Result (list ToolMetadata))
    (streamed : Result StreamResult) : Collaborators :=
  {| v4 := "6f1c2a";
     isProdWorkspaceID := isProd;
     getError := normalizedMessage;
     isInThread := false;
     FORKED_PROCESS_NAME := None;
     LITELLM_URL := Some "http://litellm:4000";
     getOrThrow := fun _ => Ok agent;
     getAvailableToolsMetadata := fun _ => tools;
     buildPromptAndTools := fun _ => Ok ("You are helpful.", [("search", JsNull)]);
     getLiteLLMModelConfigOrThrow := fun _ => Ok model;
     createLiteLLMOpenAI := fun _ _ _ => Ok tt;
     normalizeSchemaForStructuredOutput := fun schema => Ok schema;
     agentStream := fun _ _ => streamed |}.

Definition inputs : AgentStepInputs :=
  mkInputs (Some "agent_1") (Some "What is 6 x 7?") None None.

Definition structuredInputs : AgentStepInputs :=
  mkInputs (Some "agent_1") (Some "What is 6 x 7?") (Some true)
           (Some [("answer", JsString "number")]).

Definition noAgent : AgentStepInputs :=
  mkInputs None (Some "What is 6 x 7?") None None.

Definition noPrompt : AgentStepInputs :=
  mkInputs (Some "agent_1") (Some "") (Some true) None.

(** A backend that asks for another tool call on every step. *)
Definition greedyBackend (_ : string) (_ : list ToolLoop.Part)
    : ToolLoop.ModelReply :=
  ToolLoop.ToolCallRequest "search" JsNull.

Definition echoTool (_ : string) (input : JsValue) : JsValue := input.

End Sample.

(** ** Auxiliary definitions for the proofs *)

(** The counting step of line 53 on its own. *)
Definition bump (m : CountMap.t) (toolName : string) : CountMap.t :=
  CountMap.set toolName (default 0 (CountMap.get toolName m) + 1) m.

(** The histogram as map entries. *)
Definition tally (names : list string) : CountMap.t :=
  map (fun n => (n, occurrences n names)) (firstSeen names).

Definition toUsedTool (entry : string * nat) : UsedTool :=
  let '(name, count) := entry in mkUsed name count.

(** Lines 171-175 as a boolean. *)
Definition attachesOutput (inputs : AgentStepInputs) : bool :=
  match useStructuredOutput inputs, outputSchema inputs with
  | Some true, Some schema => (0 <? length (map fst schema))%nat
  | _, _ => false
  end.

(** ** The order of the calls of [run] *)

(** The place of a call in the sequence of lines 104-246; span annotations
    have none. *)
Definition callRank (c : Call) : option nat :=
  match c with
  | CallV4 => Some 0
  | CallTrace _ => Some 1
  | CallGetOrThrow _ => Some 2
  | CallGetAvailableToolsMetadata _ => Some 3
  | CallBuildPromptAndTools _ => Some 4
  | CallGetLiteLLMModelConfigOrThrow _ => Some 5
  | CallCreateLiteLLMOpenAI _ _ _ => Some 6
  | CallNormalizeSchema => Some 7
  | CallAgentStream _ _ => Some 8
  | CallConsoleError _ _ _ _ _ => Some 9
  | CallAnnotate _ => None
  end.

(** The session id that a call carries, if it carries one. *)
Definition callSessionId (c : Call) : option string :=
  match c with
  | CallTrace sessionId => Some sessionId
  | CallCreateLiteLLMOpenAI _ _ sessionId => Some sessionId
  | _ => None
  end.

Definition isConsoleError (c : Call) : bool :=
  match c with
  | CallConsoleError _ _ _ _ _ => true
  | _ => false
  end.

(** The enabled tools that [run] has resolved once lines 110-118 are through,
    if it gets that far. *)
Definition resolvedTools (w : Collaborators) (inputs : AgentStepInputs)
    : option (list ToolMetadata) :=
  match present (agentId inputs) with
  | Some agentId =>
      match getOrThrow w agentId with
      | Ok agentConfig =>
          match getAvailableToolsMetadata w (agent_aiconfig agentConfig) with
          | Ok allTools =>
              Some (resolveEnabledTools (agent_enabledTools agentConfig) allTools)
          | Throw _ => None
          end
      | Throw _ => None
      end
  | None => None
  end.

(** The collaborators [w], with the [output] promise of every stream result
    replaced by [out]. *)
Definition withOutput (out : Result JsRecord) (w : Collaborators) : Collaborators :=
  {| v4 := v4 w;
     isProdWorkspaceID := isProdWorkspaceID w;
     getError := getError w;
     isInThread := isInThread w;
     FORKED_PROCESS_NAME := FORKED_PROCESS_NAME w;
     LITELLM_URL := LITELLM_URL w;
     getOrThrow := getOrThrow w;
     getAvailableToolsMetadata := getAvailableToolsMetadata w;
     buildPromptAndTools := buildPromptAndTools w;
     getLiteLLMModelConfigOrThrow := getLiteLLMModelConfigOrThrow w;
     createLiteLLMOpenAI := createLiteLLMOpenAI w;
     normalizeSchemaForStructuredOutput := normalizeSchemaForStructuredOutput w;
     agentStream := fun settings prompt =>
       match agentStream w settings prompt with
       | Ok streamResult =>
           Ok (mkStream (sr_messages streamResult) (sr_streamError streamResult)
                 (sr_text streamResult) (sr_usage streamResult) out)
       | Throw err => Throw err
       end |}.

(** ** Automation events ([src/unnamed/part_001]) *)

Module AutomationEvents.

Inductive Event : Type :=
  | AUTOMATION_CREATED
  | AUTOMATION_TRIGGER_UPDATED
  | AUTOMATION_DELETED
  | AUTOMATION_TESTED
  | AUTOMATIONS_RUN
  | AUTOMATION_STEP_CREATED
  | AUTOMATION_STEP_DELETED.

Record Trigger : Type := mkTrigger {
  trigger_id : option string;
  trigger_stepId : option string
}.

Record AutomationDefinition : Type := mkDefinition {
  def_trigger : option Trigger
}.

Record Automation : Type := mkAutomation {
  automation_id : option string;
  automation_name : string;
  automation_definition : option AutomationDefinition
}.

Record AutomationStep : Type := mkStep {
  step_id : option string;
  step_stepId : string
}.

(** One call of [publishEvent]. *)
Record Published : Type := mkPublished {
  pub_event : Event;
  pub_properties : JsRecord;
  pub_timestamp : option JsValue
}.

(** What the module imports: the workspace context and the publisher. *)
Record Host : Type := mkHost {
  getOrThrowWorkspaceId : Result string;
  publishEvent : Event -> JsRecord -> option JsValue -> Result unit
}.

(** A [string | undefined] as a property value. *)
Definition str (x : option string) : JsValue :=
  match x with
  | Some s => JsString s
  | None => JsUndefined
  end.

(** [automation.definition?.trigger?.id] *)
Definition triggerId (automation : Automation) : option string :=
  match automation_definition automation with
  | Some definition =>
      match def_trigger definition with
      | Some trigger => trigger_id trigger
      | None => None
      end
  | None => None
  end.

(** [automation.definition?.trigger?.stepId] *)
Definition triggerType (automation : Automation) : option string :=
  match automation_definition automation with
  | Some definition =>
      match def_trigger definition with
      | Some trigger => trigger_stepId trigger
      | None => None
      end
  | None => None
  end.

(** [await publishEvent(event, properties, timestamp)]: the result of the
    publisher and the one call made. *)
Definition publish (h : Host) (event : Event) (properties : JsRecord)
    (timestamp : option JsValue) : Result unit * list Published :=
  (publishEvent h event properties timestamp,
   [mkPublished event properties timestamp]).

(** The four fields that lines 18-21 (and their copies) put first. *)
Definition automationFields (appId : string) (automation : Automation) : JsRecord :=
  [("appId", JsString appId);
   ("automationId", str (automation_id automation));
   ("triggerId", str (triggerId automation));
   ("triggerType", str (triggerType automation))].

Definition audited (automation : Automation) : JsRecord :=
  [("audited", JsObject [("name", JsString (automation_name automation))])].

Definition stepFields (step : AutomationStep) : JsRecord :=
  [("stepId", str (step_id step)); ("stepType", JsString (step_stepId step))].

(** Lines 16-27. *)
Definition created (h : Host) (automation : Automation)
    (timestamp : option JsValue) : Result unit * list Published :=
  match getOrThrowWorkspaceId h with
  | Throw err => (Throw err, [])
  | Ok appId =>
      publish h AUTOMATION_CREATED
        (automationFields appId automation ++ audited automation) timestamp
  end.

(** Lines 29-37. *)
Definition triggerUpdated (h : Host) (automation : Automation)
    : Result unit * list Published :=
  match getOrThrowWorkspaceId h with
  | Throw err => (Throw err, [])
  | Ok appId =>
      publish h AUTOMATION_TRIGGER_UPDATED (automationFields appId automation) None
  end.

(** Lines 39-50. *)
Definition deleted (h : Host) (automation : Automation)
    : Result unit * list Published :=
  match getOrThrowWorkspaceId h with
  | Throw err => (Throw err, [])
  | Ok appId =>
      publish h AUTOMATION_DELETED
        (automationFields appId automation ++ audited automation) None
  end.

(** Lines 52-60. *)
Definition tested (h : Host) (automation : Automation)
    : Result unit * list Published :=
  match getOrThrowWorkspaceId h with
  | Throw err => (Throw err, [])
  | Ok appId =>
      publish h AUTOMATION_TESTED (automationFields appId automation) None
  end.

(** Lines 62-67. *)
Definition run (h : Host) (count : Z) (timestamp : option JsValue)
    : Result unit * list Published :=
  publish h AUTOMATIONS_RUN [("count", JsNumber count)] timestamp.

(** Lines 69-86. *)
Definition stepCreated (h : Host) (automation : Automation) (step : AutomationStep)
    (timestamp : option JsValue) : Result unit * list Published :=
  match getOrThrowWorkspaceId h with
  | Throw err => (Throw err, [])
  | Ok appId =>
      publish h AUTOMATION_STEP_CREATED
        (automationFields appId automation ++ stepFields step ++ audited automation)
        timestamp
  end.

(** Lines 88-101. *)
Definition stepDeleted (h : Host) (automation : Automation) (step : AutomationStep)
    : Result unit * list Published :=
  match getOrThrowWorkspaceId h with
  | Throw err => (Throw err, [])
  | Ok appId =>
      publish h AUTOMATION_STEP_DELETED
        (automationFields appId automation ++ stepFields step ++ audited automation)
        None
  end.

(** The event [p] describes [automation] in workspace [appId]. *)
Definition describes (appId : string) (automation : Automation) (p : Published)
    : Prop :=
  Js.lookup_prop "appId" (pub_properties p) = Some (JsString appId) ∧
  Js.lookup_prop "automationId" (pub_properties p)
  = Some (str (automation_id automation)) ∧
  Js.lookup_prop "triggerId" (pub_properties p) = Some (str (triggerId automation)) ∧
  Js.lookup_prop "triggerType" (pub_properties p)
  = Some (str (triggerType automation)).

End AutomationEvents.

(** ** More sample data *)

Module Cases.

(** A static tool part: the tool is named in the type only. *)
Definition staticToolPart : JsValue :=
  JsObject [("type", JsString "tool-search"); ("state", JsString "input-available")].

Definition staticCall : UIMessage :=
  mkMessage "msg_3" "assistant" (Some [staticToolPart; Sample.textPart "ok"]).

Definition reordered : UIMessage :=
  mkMessage "msg_4" "assistant"
    (Some [Sample.toolPart "calculator"; Sample.toolPart "search";
           Sample.toolPart "search"; Sample.toolPart "search";
           Sample.textPart "42"]).

Definition notFound : JsValue :=
  JsObject [("name", JsString "NotFoundError"); ("message", JsString "Agent not found")].

(** The agent store does not know the agent. *)
Definition unknownAgent : Collaborators :=
  {| v4 := "6f1c2a";
     isProdWorkspaceID := Sample.isProd;
     getError := Sample.normalizedMessage;
     isInThread := false;
     FORKED_PROCESS_NAME := None;
     LITELLM_URL := None;
     getOrThrow := fun _ => Throw notFound;
     getAvailableToolsMetadata := fun _ => Ok Sample.allTools;
     buildPromptAndTools := fun _ => Ok ("", []);
     getLiteLLMModelConfigOrThrow := fun _ => Ok Sample.model;
     createLiteLLMOpenAI := fun _ _ _ => Ok tt;
     normalizeSchemaForStructuredOutput := fun schema => Ok schema;
     agentStream := fun _ _ => Ok Sample.finished |}.

Definition happy : Collaborators :=
  Sample.world Sample.liveAgent (Ok Sample.allTools) (Ok Sample.finished).

Definition failing : Collaborators :=
  Sample.world Sample.liveAgent (Ok Sample.allTools) (Ok Sample.broken).

Definition refusing : Collaborators :=
  Sample.world Sample.pausedAgent (Ok Sample.allTools) (Ok Sample.finished).

Definition automation : AutomationEvents.Automation :=
  AutomationEvents.mkAutomation (Some "au_1") "Nightly sync"
    (Some (AutomationEvents.mkDefinition
             (Some (AutomationEvents.mkTrigger (Some "t_1") (Some "CRON"))))).

Definition step : AutomationEvents.AutomationStep :=
  AutomationEvents.mkStep (Some "s_1") "AGENT".

Definition noWorkspace : AutomationEvents.Host :=
  AutomationEvents.mkHost (Throw (JsString "Workspace id not found"))
    (fun _ _ _ => Ok tt).

Definition inWorkspace : AutomationEvents.Host :=
  AutomationEvents.mkHost (Ok "app_1") (fun _ _ _ => Ok tt).

(** A normalizer that hands a thrown string back as it is. *)
Definition thrownText (err : JsValue) : string :=
  match err with
  | JsString text => text
  | _ => Sample.normalizedMessage err
  end.

(** The agent store throws the empty string. *)
Definition silent : Collaborators :=
  {| v4 := "6f1c2a";
     isProdWorkspaceID := Sample.isProd;
     getError := thrownText;
     isInThread := false;
     FORKED_PROCESS_NAME := None;
     LITELLM_URL := None;
     getOrThrow := fun _ => Throw (JsString "");
     getAvailableToolsMetadata := fun _ => Ok Sample.allTools;
     buildPromptAndTools := fun _ => Ok ("", []);
     getLiteLLMModelConfigOrThrow := fun _ => Ok Sample.model;
     createLiteLLMOpenAI := fun _ _ _ => Ok tt;
     normalizeSchemaForStructuredOutput := fun schema => Ok schema;
     agentStream := fun _ _ => Ok Sample.finished |}.

End Cases.

(** Lines 170-181 without the trace: the output constraint, or the error of
    the normalizer. *)
Definition outputConstraint (w : Collaborators) (inputs : AgentStepInputs)
    : Result (option JsRecord) :=
  if attachesOutput inputs then
    match normalizeSchemaForStructuredOutput w (default [] (outputSchema inputs)) with
    | Ok normalizedSchema => Ok (Some normalizedSchema)
    | Throw err => Throw err
    end
  else Ok None.

(** Lines 183-193: the settings of the agent, from what was resolved. *)
Definition agentSettings (modelConfig : ModelConfig) (systemPrompt : string)
    (tools : JsRecord) (outputOption : option JsRecord) : AgentSettings :=
  {| set_model := mc_modelId modelConfig;
     set_instructions :=
       if String.eqb systemPrompt "" then None else Some systemPrompt;
     set_tools := tools;
     set_stopWhen := maxSteps;
     set_providerOptions := mc_modelName modelConfig;
     set_output := outputOption |}.

(** * Properties *)

(** ** The insertion-ordered map *)

Section CountMapFacts.

Variable f : string -> nat.

Let table (ks : list string) : CountMap.t := map (fun k => (k, f k)) ks.

Lemma get_table (ks : list string) (n : string) :
  CountMap.get n (table ks) = if decide (n ∈ ks) then Some (f n) else None.
Proof.
  induction ks as [|k ks IH]; simpl; [done|].
  destruct (String.eqb_spec n k) as [->|Hne].
  - rewrite decide_True; [done | left].
  - rewrite IH. destruct (decide (n ∈ ks)) as [Hin|Hout].
    + rewrite decide_True; [done | by right].
    + rewrite decide_False; [done|]. rewrite elem_of_cons. tauto.
Qed.

Lemma set_table_fresh (ks : list string) (n : string) (v : nat) :
  n ∉ ks -> CountMap.set n v (table ks) = (table ks ++ [(n, v)])%list.
Proof.
  induction ks as [|k ks IH]; simpl; intros Hout; [done|].
  apply not_elem_of_cons in Hout as [Hne Hout].
  destruct (String.eqb_spec n k) as [->|_]; [done|].
  by rewrite IH.
Qed.

Lemma set_table_seen (ks : list string) (n : string) (v : nat) :
  NoDup ks -> n ∈ ks ->
  CountMap.set n v (table ks)
  = map (fun k => (k, if decide (k = n) then v else f k)) ks.
Proof.
  induction ks as [|k ks IH]; simpl; intros Hnd Hin.
  - by apply elem_of_nil in Hin.
  - apply NoDup_cons in Hnd as [Hk Hnd].
    destruct (String.eqb_spec n k) as [->|Hne].
    + rewrite decide_True by done. f_equal.
      apply map_ext_in. intros k' Hk'. apply list_elem_of_In in Hk'.
      rewrite decide_False; [done|]. by intros ->.
    + rewrite decide_False by done. f_equal. apply IH; [done|].
      apply elem_of_cons in Hin as [?|?]; [done|done].
Qed.

End CountMapFacts.

(** ** First-seen order and counts *)

Lemma elem_of_firstSeen (n : string) (l : list string) :
  n ∈ firstSeen l <-> n ∈ l.
Proof.
  induction l as [|a l IH]; simpl; [done|].
  rewrite !elem_of_cons, list_elem_of_filter, IH.
  destruct (decide (n = a)); tauto.
Qed.

Lemma NoDup_firstSeen (l : list string) : NoDup (firstSeen l).
Proof.
  induction l as [|a l IH]; simpl; [constructor|].
  apply NoDup_cons. split.
  - rewrite list_elem_of_filter. tauto.
  - by apply NoDup_filter.
Qed.

Lemma firstSeen_snoc (l : list string) (n : string) :
  firstSeen (l ++ [n])
  = if decide (n ∈ l) then firstSeen l else (firstSeen l ++ [n])%list.
Proof.
  induction l as [|a l IH].
  - rewrite decide_False; [done | apply not_elem_of_nil].
  - change (firstSeen ((a :: l) ++ [n]))
      with (a :: filter (fun m => m ≠ a) (firstSeen (l ++ [n]))).
    change (firstSeen (a :: l)) with (a :: filter (fun m => m ≠ a) (firstSeen l)).
    rewrite IH. destruct (decide (n ∈ l)) as [Hin|Hout].
    + rewrite decide_True; [done | by right].
    + rewrite filter_app. destruct (decide (n = a)) as [->|Hne].
      * rewrite decide_True by left. rewrite filter_cons_False by tauto.
        simpl. by rewrite app_nil_r.
      * rewrite decide_False by (rewrite elem_of_cons; tauto).
        by rewrite filter_cons_True.
Qed.

Lemma occurrences_snoc (m : string) (l : list string) (n : string) :
  occurrences m (l ++ [n])
  = if decide (n = m) then S (occurrences m l) else occurrences m l.
Proof.
  unfold occurrences. rewrite filter_app, length_app.
  destruct (decide (n = m)) as [->|Hne].
  - rewrite filter_cons_True by done. simpl. lia.
  - rewrite filter_cons_False by done. simpl. lia.
Qed.

Lemma occurrences_fresh (n : string) (l : list string) :
  n ∉ l -> occurrences n l = 0.
Proof.
  intros Hout. unfold occurrences.
  induction l as [|a l IH]; [done|].
  apply not_elem_of_cons in Hout as [Hne Hout].
  rewrite filter_cons_False by congruence. by apply IH.
Qed.

(** Counting one more name is one [Map.set] on the entries counted so far. *)
Lemma tally_snoc (names : list string) (n : string) :
  tally (names ++ [n]) = bump (tally names) n.
Proof.
  unfold bump, tally.
  rewrite (get_table (fun k => occurrences k names)), firstSeen_snoc.
  destruct (decide (n ∈ names)) as [Hin|Hout].
  - rewrite decide_True by (by apply elem_of_firstSeen). simpl.
    rewrite (set_table_seen (fun k => occurrences k names));
      [| apply NoDup_firstSeen | by apply elem_of_firstSeen].
    apply map_ext. intros k. rewrite occurrences_snoc.
    destruct (decide (k = n)) as [->|Hne].
    + rewrite decide_True by done. f_equal. lia.
    + rewrite decide_False by congruence. done.
  - rewrite decide_False by (by rewrite elem_of_firstSeen). simpl.
    rewrite (set_table_fresh (fun k => occurrences k names))
      by (by rewrite elem_of_firstSeen).
    rewrite map_app. simpl. rewrite occurrences_snoc, decide_True by done.
    rewrite occurrences_fresh by done. f_equal.
    apply map_ext_in. intros k Hk. apply list_elem_of_In in Hk. rewrite elem_of_firstSeen in Hk.
    rewrite occurrences_snoc, decide_False; [done|]. by intros ->.
Qed.

Lemma foldl_bump (names : list string) : foldl bump CountMap.empty names = tally names.
Proof.
  induction names as [|n names IH] using rev_ind; [done|].
  by rewrite foldl_snoc, IH, tally_snoc.
Qed.

(** ** The decision log *)

Lemma countPart_bump (m : CountMap.t) (part : JsValue) :
  countPart m part
  = match countedToolName part with Some n => bump m n | None => m end.
Proof.
  unfold countPart, countedToolName, statedToolName, partToolName.
  destruct (isToolPartType (partType part)); [|done].
  destruct part as [| | | | |items|props]; simpl; try done.
  destruct (Js.lookup_prop "toolName" props) as [[| | | |name| |]|]; simpl;
    try done.
  by destruct (String.eqb name "").
Qed.

Lemma foldl_countPart (parts : list JsValue) (m : CountMap.t) :
  foldl countPart m parts = foldl bump m (omap countedToolName parts).
Proof.
  revert m. induction parts as [|part parts IH]; intros m; simpl; [done|].
  rewrite IH, countPart_bump. by destruct (countedToolName part).
Qed.

Lemma countToolCalls_tally (assistantMessage : option UIMessage) :
  countToolCalls assistantMessage
  = tally (omap countedToolName (messageParts assistantMessage)).
Proof. unfold countToolCalls. by rewrite foldl_countPart, foldl_bump. Qed.

Lemma histogram_tally (names : list string) :
  histogram names = map toUsedTool (tally names).
Proof. unfold histogram, tally. by rewrite map_map. Qed.

Lemma usedTools_counted
    (enabledTools : option (list ToolMetadata)) (assistantMessage : option UIMessage)
    (modelId modelName baseUrl : option string) :
  log_usedTools
    (buildAgentDecisionLog enabledTools assistantMessage modelId modelName baseUrl)
  = countedUsedTools assistantMessage.
Proof.
  unfold buildAgentDecisionLog, countedUsedTools, CountMap.entries. simpl.
  rewrite histogram_tally, countToolCalls_tally.
  change (fun '(name, count) => mkUsed name count) with toUsedTool.
  by destruct (map toUsedTool _).
Qed.

(** The example of the specification: three calls to [search] and one to
    [calculator]. *)
Example usedTools_search_calculator :
  log_usedTools (buildAgentDecisionLog None (Some Sample.answer) None None None)
  = Some [mkUsed "search" 3; mkUsed "calculator" 1].
Proof. reflexivity. Qed.

(** C6, as stated, fails: a tool part whose [toolName] is the empty string
    carries a string tool name, yet line 50 skips it, so [usedTools] is
    omitted where the stated histogram has one entry. *)
Lemma empty_tool_name_not_counted :
  statedUsedTools (Some Sample.unnamedCall) = Some [mkUsed "" 1] ∧
  log_usedTools
    (buildAgentDecisionLog None (Some Sample.unnamedCall) None None None) = None.
Proof. split; reflexivity. Qed.

(** C6, amended: for every optional assistant message, whatever the shape of
    its parts, [buildAgentDecisionLog] returns a log whose [usedTools] is
    exactly the name-to-count histogram, in first-seen order, of the parts
    that identify as a tool invocation and carry a non-empty string tool
    name; [usedTools] is omitted when that histogram is empty, [enabledTools]
    is passed through, and [model] is omitted when none of [modelId],
    [modelName], [baseUrl] was resolved. *)
Theorem decision_log_used_tools
    (enabledTools : option (list ToolMetadata)) (assistantMessage : option UIMessage)
    (modelId modelName baseUrl : option string) :
  let names := omap countedToolName (messageParts assistantMessage) in
  let log :=
    buildAgentDecisionLog enabledTools assistantMessage modelId modelName baseUrl in
  log_usedTools log = (if decide (names = []) then None else Some (histogram names))
  ∧ log_enabledTools log = enabledTools
  ∧ log_model (buildAgentDecisionLog enabledTools assistantMessage None None None)
    = None.
Proof.
  intros names log. split; [|done].
  unfold log. rewrite usedTools_counted. unfold countedUsedTools. fold names.
  destruct names as [|n names]; [done|].
  rewrite decide_False by done. done.
Qed.

(** ** Enabled tools *)

Lemma enabledToolNames_size (names : list string) :
  (0 <? size (list_to_set names : gset string))%nat = bool_decide (names ≠ []).
Proof.
  destruct names as [|n names].
  - by rewrite bool_decide_false by auto.
  - rewrite bool_decide_true by done. apply Nat.ltb_lt.
    assert (size (list_to_set (n :: names) : gset string) ≠ 0%nat); [|lia].
    apply size_non_empty_iff. intros Hempty.
    assert (n ∈ (list_to_set (n :: names) : gset string)) as Hn
      by (apply elem_of_list_to_set; left).
    rewrite Hempty in Hn. by apply not_elem_of_empty in Hn.
Qed.

(** The example of the specification: no filter keeps A, B and C, a filter
    on one name keeps that tool. *)
Example resolveEnabledTools_sample :
  resolveEnabledTools (Some []) Sample.allTools = Sample.allTools ∧
  resolveEnabledTools (Some ["calculator"]) Sample.allTools = [Sample.calculator].
Proof. split; vm_compute; reflexivity. Qed.

(** C5: for every list of available tools and every [enabledTools] of the
    agent config, the resolved tools are the available tools unchanged when
    [enabledTools] is unset or empty, and otherwise exactly the available
    tools whose name is a member of [enabledTools], in their original
    order. *)
Theorem resolveEnabledTools_spec
    (enabledTools : option (list string)) (allTools : list ToolMetadata) :
  resolveEnabledTools enabledTools allTools
  = match enabledTools with
    | None | Some [] => allTools
    | Some names => filter (fun tool => tool_name tool ∈ names) allTools
    end.
Proof.
  unfold resolveEnabledTools. rewrite enabledToolNames_size.
  destruct enabledTools as [[|n names]|]; [done| |done].
  rewrite bool_decide_true by done.
  apply list_filter_iff. intros tool. apply elem_of_list_to_set.
Qed.

(** ** Running the step *)

Ltac unfold_run :=
  unfold invoke, run, runBody, onError, tryCatch, perform, annotate,
    logCall, assignEnabledTools, assignModel, modifyState, liftResult, getState,
    mbind, mret, M_bind, M_ret in *;
  cbn beta iota zeta in *.

Lemma run_unfold (w : Collaborators) (inputs : AgentStepInputs)
    (appId : option string) :
  run w inputs appId initialState
  = match present (agentId inputs) with
    | None => (Ok (failure noAgentMessage None), initialState)
    | Some a =>
        match present (prompt inputs) with
        | None => (Ok (failure noPromptMessage None), initialState)
        | Some p =>
            match runBody w inputs a p appId (v4 w) (spanState w) with
            | (Ok o, st) => (Ok o, st)
            | (Throw err, st) => onError w a appId err st
            end
        end
    end.
Proof.
  unfold run. destruct (present (agentId inputs)); [|done].
  destruct (present (prompt inputs)); done.
Qed.

(** The [catch] block always returns, and what it returns. *)
Lemma onError_unfold (w : Collaborators) (a : string) (appId : option string)
    (err : JsValue) (st : RunState) :
  onError w a appId err st
  = (Ok (failure (getError w err)
           (Some (buildAgentDecisionLog (st_enabledTools st) None
                    (st_modelId st) (st_modelName st) (st_baseUrl st)))),
     pushCall (CallConsoleError a appId (LITELLM_URL w) (errorName err)
                 (getError w err))
       (pushCall (CallAnnotate
                    (AnnError (getError w err)
                       (if Js.truthy (errorName err) then errorName err
                        else JsString "UnknownError"))) st)).
Proof. reflexivity. Qed.

Lemma tryCatch_returns {A} (body : M A) (handler : JsValue -> M A) (st : RunState) :
  (forall err st1, exists a st2, handler err st1 = (Ok a, st2)) ->
  exists a st', tryCatch body handler st = (Ok a, st').
Proof.
  intros Hhandler. unfold tryCatch.
  destruct (body st) as [[a|err] st1]; eauto.
Qed.

(** [run] returns an outcome whatever the collaborators do. *)
Lemma run_returns (w : Collaborators) (inputs : AgentStepInputs)
    (appId : option string) :
  exists o st, run w inputs appId initialState = (Ok o, st).
Proof.
  unfold run.
  destruct (present (agentId inputs)) as [a|]; [|by eexists _, _].
  destruct (present (prompt inputs)) as [p|]; [|by eexists _, _].
  unfold mbind, M_bind, logCall, modifyState. cbn beta iota.
  apply tryCatch_returns. intros err st1. rewrite onError_unfold. eauto.
Qed.

Lemma invoke_run (w : Collaborators) (inputs : AgentStepInputs)
    (appId : option string) (r : Result AgentStepOutputs) (calls : list Call) :
  invoke w inputs appId = (r, calls) <->
  exists st, run w inputs appId initialState = (r, st) ∧ st_calls st = calls.
Proof.
  unfold invoke. destruct (run w inputs appId initialState) as [r' st'].
  split.
  - intros H. inversion H; subst. eauto.
  - intros (st & H & <-). by inversion H.
Qed.

Lemma present_None (x : option string) :
  present x = None <-> x = None ∨ x = Some "".
Proof.
  destruct x as [s|]; simpl; [|tauto].
  destruct (String.eqb_spec s "") as [->|Hne]; [tauto|].
  split; [done | intros [?|[= ?]]; done].
Qed.

(** C3: if [agentId] is missing (or empty) or [prompt] is missing or empty,
    [run] returns [success = false] at once and has made no call at all: no
    session id was drawn, no span was opened, neither the agent store nor
    the backend was contacted. *)
Theorem invalid_inputs_make_no_call (w : Collaborators) (inputs : AgentStepInputs)
    (appId : option string) :
  agentId inputs = None ∨ agentId inputs = Some "" ∨
  prompt inputs = None ∨ prompt inputs = Some "" ->
  exists o, invoke w inputs appId = (Ok o, []) ∧ success o = false.
Proof.
  intros Hmissing.
  assert (present (agentId inputs) = None ∨ present (prompt inputs) = None)
    as Hpresent by (rewrite !present_None; tauto).
  unfold invoke. rewrite run_unfold.
  destruct (present (agentId inputs)) as [a|]; [|by eexists].
  destruct Hpresent as [? | ->]; [done|]. by eexists.
Qed.

Lemma invalid_inputs_make_no_call_witness :
  exists o,
    invoke (Sample.world Sample.liveAgent (Ok Sample.allTools) (Ok Sample.finished))
           Sample.noPrompt (Some "app_1") = (Ok o, []) ∧ success o = false.
Proof.
  apply invalid_inputs_make_no_call. right. right. right. reflexivity.
Defined.

(** ** The output constraint *)

Lemma attachesOutput_spec (inputs : AgentStepInputs) :
  attachesOutput inputs = true <-> structuredOutputRequested inputs.
Proof.
  unfold attachesOutput, structuredOutputRequested.
  destruct (useStructuredOutput inputs) as [[|]|];
    [|split; [done | by intros [? _]]..].
  destruct (outputSchema inputs) as [[|field schema]|]; simpl.
  - split; [done|]. intros (_ & schema & Hs & Hne). by inversion Hs; subst.
  - split; [|done]. intros _. split; [done|]. by exists (field :: schema).
  - split; [done|]. by intros (_ & schema & Hs & _).
Qed.

Lemma buildOutputOption_unfold (w : Collaborators) (inputs : AgentStepInputs)
    (st : RunState) :
  buildOutputOption w inputs st
  = if attachesOutput inputs then
      match normalizeSchemaForStructuredOutput w (default [] (outputSchema inputs)) with
      | Ok normalizedSchema => (Ok (Some normalizedSchema), pushCall CallNormalizeSchema st)
      | Throw err => (Throw err, pushCall CallNormalizeSchema st)
      end
    else (Ok None, st).
Proof.
  unfold buildOutputOption, attachesOutput.
  destruct (useStructuredOutput inputs) as [[|]|]; try done.
  destruct (outputSchema inputs) as [schema|]; [|done]. simpl.
  destruct (0 <? length (map fst schema))%nat; [|done].
  unfold_run. by destruct (normalizeSchemaForStructuredOutput w schema).
Qed.

(** ** Symbolic execution of the [try] block *)

(** Split on the next collaborator result or branch that the run recorded in
    hypothesis [H] inspects. *)
Ltac exec_step H :=
  match type of H with
  | context [buildOutputOption ?w ?i ?st] =>
      rewrite (buildOutputOption_unfold w i st) in H;
      destruct (attachesOutput i) eqn:?
  | context [match ?r with Ok _ => _ | Throw _ => _ end] =>
      lazymatch r with
      | context [match _ with _ => _ end] => fail
      | _ => destruct r eqn:?
      end
  | context [match ?o with Some _ => _ | None => _ end] =>
      lazymatch o with
      | context [match _ with _ => _ end] => fail
      | _ => destruct o eqn:?
      end
  | context [let '(_, _) := ?p in _] => is_var p; destruct p
  | context [if ?b then _ else _] =>
      lazymatch b with
      | context [match _ with _ => _ end] => fail
      | _ => destruct b eqn:?
      end
  end;
  cbn beta iota zeta in H.

(** Run the body recorded in [H] to its end, one goal per way it can end. *)
Ltac exec_body H :=
  unfold runBody, tryCatch, perform, annotate, logCall, assignEnabledTools,
    assignModel, modifyState, liftResult, getState, mbind, mret, M_bind, M_ret in H;
  cbn beta iota zeta in H;
  repeat exec_step H;
  inversion H; subst; clear H.

(** Membership in the calls made so far, after some more were appended. *)
Ltac split_calls H :=
  unfold pushCall in H; cbn [st_calls] in H;
  repeat (rewrite elem_of_app in H); rewrite ?list_elem_of_singleton in H;
  repeat match type of H with _ ∨ _ => destruct H as [H|H] end.

(** A call is among the calls made so far. *)
Ltac in_calls :=
  unfold pushCall; cbn [st_calls];
  rewrite ?elem_of_app, ?list_elem_of_singleton; tauto.

(** When the body returns, it either refused a paused agent or succeeded. *)
Lemma runBody_returns (w : Collaborators) (inputs : AgentStepInputs)
    (a p : string) (appId : option string) (sid : string)
    (st st' : RunState) (o : AgentStepOutputs) :
  runBody w inputs a p appId sid st = (Ok o, st') ->
  exists agentConfig allTools,
    getOrThrow w a = Ok agentConfig ∧
    getAvailableToolsMetadata w (agent_aiconfig agentConfig) = Ok allTools ∧
    if pausedInProduction w appId agentConfig
    then o = failure pausedMessage None
    else success o = true ∧ is_Some (agentTrace o) ∧
         (is_Some (output o) <-> attachesOutput inputs = true).
Proof.
  intros H. exec_body H.
  all: eexists _, _; (split; [reflexivity|]); (split; [eassumption|]).
  all: match goal with Hp : pausedInProduction _ _ _ = _ |- _ => rewrite Hp end.
  all: try reflexivity.
  all: (split; [reflexivity|]); (split; [by eexists|]); cbn [output].
  all: split; [done | try done].
Qed.

(** The refusal of line 131, once the agent and its tools have resolved. *)
Lemma runBody_paused (w : Collaborators) (inputs : AgentStepInputs)
    (a p : string) (appId : option string) (sid : string) (st : RunState)
    (agentConfig : AgentConfig) (allTools : list ToolMetadata) :
  getOrThrow w a = Ok agentConfig ->
  getAvailableToolsMetadata w (agent_aiconfig agentConfig) = Ok allTools ->
  pausedInProduction w appId agentConfig = true ->
  exists st',
    runBody w inputs a p appId sid st = (Ok (failure pausedMessage None), st') ∧
    st_calls st'
    = st_calls st ++
      [CallGetOrThrow a;
       CallGetAvailableToolsMetadata (agent_aiconfig agentConfig);
       CallAnnotate (AnnInput p a (agent_name agentConfig) appId (isInThread w)
                       (orElse (default "" (FORKED_PROCESS_NAME w)) "main"));
       CallAnnotate AnnPaused].
Proof.
  intros Hagent Htools Hpaused.
  unfold_run. rewrite Hagent. cbn beta iota. rewrite Htools. cbn beta iota.
  rewrite Hpaused. eexists. split; [reflexivity|].
  unfold pushCall. cbn [st_calls]. by rewrite <- !app_assoc.
Qed.

(** The tool listing runs before the paused check: when it throws, so does
    the body, after two store calls. *)
Lemma runBody_tools_throw (w : Collaborators) (inputs : AgentStepInputs)
    (a p : string) (appId : option string) (sid : string) (st : RunState)
    (agentConfig : AgentConfig) (err : JsValue) :
  getOrThrow w a = Ok agentConfig ->
  getAvailableToolsMetadata w (agent_aiconfig agentConfig) = Throw err ->
  runBody w inputs a p appId sid st
  = (Throw err,
     pushCall (CallGetAvailableToolsMetadata (agent_aiconfig agentConfig))
       (pushCall (CallGetOrThrow a) st)).
Proof.
  intros Hagent Htools.
  unfold_run. rewrite Hagent. cbn beta iota. by rewrite Htools.
Qed.

(** Every [agent.stream] call that the body makes carries the step bound of
    line 188 and an output constraint exactly when lines 171-175 ask for
    one. *)
Lemma runBody_stream_calls (w : Collaborators) (inputs : AgentStepInputs)
    (a p : string) (appId : option string) (sid : string)
    (st st' : RunState) (r : Result AgentStepOutputs)
    (settings : AgentSettings) (q : string) :
  runBody w inputs a p appId sid st = (r, st') ->
  CallAgentStream settings q ∈ st_calls st' ->
  CallAgentStream settings q ∈ st_calls st ∨
  (set_stopWhen settings = maxSteps ∧
   (is_Some (set_output settings) <-> attachesOutput inputs = true)).
Proof.
  intros H Hin. exec_body H; split_calls Hin; try discriminate Hin; auto.
  all: inversion Hin; subst; cbn [set_stopWhen set_output]; right.
  all: split; [done | split; [done | try done]].
  all: by intros [? ?].
Qed.

(** An agent that is not refused goes on to build its prompt and tools and,
    once the model config resolves, to build the backend client. *)
Lemma runBody_proceeds (w : Collaborators) (inputs : AgentStepInputs)
    (a p : string) (appId : option string) (sid : string)
    (st st' : RunState) (r : Result AgentStepOutputs)
    (agentConfig : AgentConfig) (allTools : list ToolMetadata) :
  getOrThrow w a = Ok agentConfig ->
  getAvailableToolsMetadata w (agent_aiconfig agentConfig) = Ok allTools ->
  pausedInProduction w appId agentConfig = false ->
  runBody w inputs a p appId sid st = (r, st') ->
  CallBuildPromptAndTools (agent_name agentConfig) ∈ st_calls st' ∧
  (CallAnnotate AnnPaused ∈ st_calls st' -> CallAnnotate AnnPaused ∈ st_calls st) ∧
  forall promptAndTools modelConfig,
    buildPromptAndTools w agentConfig = Ok promptAndTools ->
    getLiteLLMModelConfigOrThrow w (agent_aiconfig agentConfig) = Ok modelConfig ->
    CallCreateLiteLLMOpenAI (mc_apiKey modelConfig) (mc_baseUrl modelConfig) sid
      ∈ st_calls st'.
Proof.
  intros Hagent Htools Hpaused H.
  unfold runBody in H. unfold_run.
  rewrite Hagent in H. cbn beta iota in H.
  rewrite Htools in H. cbn beta iota in H.
  rewrite Hpaused in H.
  repeat exec_step H; inversion H; subst; clear H.
  all: split; [in_calls|].
  all: split; [intros Hin; split_calls Hin; try discriminate Hin; done|].
  all: intros promptAndTools modelConfig Hprompt Hmodel; try congruence.
  all: inversion Hmodel; subst; in_calls.
Qed.

(** ** Outcomes of [run] *)

(** C1, as stated, fails: the outcome returned when no agent is selected has
    no [agentTrace]. *)
Lemma validation_failure_has_no_trace :
  exists o calls,
    invoke (Sample.world Sample.liveAgent (Ok Sample.allTools) (Ok Sample.finished))
           Sample.noAgent (Some "app_1") = (Ok o, calls) ∧
    agentTrace o = None.
Proof. by eexists _, _. Qed.

(** The same holds for the refusal of a paused agent. *)
Example paused_refusal_has_no_trace :
  exists o calls,
    invoke (Sample.world Sample.pausedAgent (Ok Sample.allTools) (Ok Sample.finished))
           Sample.inputs (Some "app_1") = (Ok o, calls) ∧
    response o = pausedMessage ∧ agentTrace o = None.
Proof. by eexists _, _. Qed.

(** C1, amended: [run] always returns an outcome, and that outcome carries a
    decision log in [agentTrace] exactly when it comes from the success path
    or from the [catch] block; the outcomes returned for failed input
    validation and for a paused agent carry none. *)
Theorem agentTrace_present_iff (w : Collaborators) (inputs : AgentStepInputs)
    (appId : option string) :
  exists o calls,
    invoke w inputs appId = (Ok o, calls) ∧
    (is_Some (agentTrace o) <->
     validationFails inputs = false ∧ refusedAsPaused w inputs appId = false).
Proof.
  unfold invoke, validationFails, refusedAsPaused. rewrite run_unfold.
  destruct (present (agentId inputs)) as [a|];
    [|eexists _, _; split; [done|]; split; [by intros [? ?] | by intros [? _]]].
  destruct (present (prompt inputs)) as [p|];
    [|eexists _, _; split; [done|]; split; [by intros [? ?] | by intros [? _]]].
  destruct (runBody w inputs a p appId (v4 w) (spanState w)) as [[o|err] st] eqn:Hbody.
  - eexists _, _. split; [done|].
    apply runBody_returns in Hbody as (agentConfig & allTools & -> & -> & Hend).
    destruct (pausedInProduction w appId agentConfig).
    + subst o. split; [by intros [? ?] | by intros [_ ?]].
    + by destruct Hend as (_ & ? & _).
  - rewrite onError_unfold. eexists _, _. split; [done|].
    split; [intros _ | by eexists]. split; [done|].
    destruct (getOrThrow w a) as [agentConfig|] eqn:Hagent; [|done].
    destruct (getAvailableToolsMetadata w (agent_aiconfig agentConfig))
      as [allTools|] eqn:Htools; [|done].
    destruct (pausedInProduction w appId agentConfig) eqn:Hpaused; [|done].
    destruct (runBody_paused w inputs a p appId (v4 w) (spanState w)
                agentConfig allTools Hagent Htools Hpaused) as (st' & Hok & _).
    congruence.
Qed.

(** C2, as stated, fails: the response of the [catch] block is whatever
    [getError] makes of the thrown value, so an empty string thrown by the
    agent store and normalized to itself gives a failure with an empty
    response. *)
Lemma empty_error_gives_empty_response :
  exists o calls,
    invoke Cases.silent Sample.inputs None = (Ok o, calls) ∧
    success o = false ∧ response o = "".
Proof. by eexists _, _. Qed.

(** C2, amended: for every input and whatever the collaborators do (any of
    the calls made inside the [try] block may throw), [run] returns an
    outcome and never raises.  A failure outcome is the no-agent or the
    no-prompt failure, the paused refusal, or, when the [try] block threw
    [err], the failure whose response is exactly [getError err]; so the
    response of a failure is empty only if [getError] gives the empty
    string for the error that was caught. *)
Theorem run_returns_failure_response (w : Collaborators) (inputs : AgentStepInputs)
    (appId : option string) :
  exists o calls,
    invoke w inputs appId = (Ok o, calls) ∧
    match present (agentId inputs), present (prompt inputs) with
    | None, _ => o = failure noAgentMessage None
    | Some _, None => o = failure noPromptMessage None
    | Some a, Some p =>
        match runBody w inputs a p appId (v4 w) (spanState w) with
        | (Throw err, _) => success o = false ∧ response o = getError w err
        | (Ok o', _) => o = o' ∧ (success o = false -> response o = pausedMessage)
        end
    end ∧
    (success o = false -> response o = "" ->
     exists a p err st,
       present (agentId inputs) = Some a ∧ present (prompt inputs) = Some p ∧
       runBody w inputs a p appId (v4 w) (spanState w) = (Throw err, st) ∧
       getError w err = "").
Proof.
  unfold invoke. rewrite run_unfold.
  destruct (present (agentId inputs)) as [a|]; [|by eexists _, _].
  destruct (present (prompt inputs)) as [p|]; [|by eexists _, _].
  destruct (runBody w inputs a p appId (v4 w) (spanState w)) as [[o|err] st] eqn:Hbody.
  - eexists _, _. split; [done|].
    apply runBody_returns in Hbody as (agentConfig & allTools & _ & _ & Hend).
    destruct (pausedInProduction w appId agentConfig).
    + subst o. split; [done|]. intros _ Hempty. discriminate Hempty.
    + destruct Hend as (Hok & _). split; [split; [done|] |]; intros Hfail; congruence.
  - rewrite onError_unfold. eexists _, _. split; [done|]. split; [done|].
    intros _ Hempty. by exists a, p, err, st.
Qed.

Lemma run_returns_failure_response_witness :
  exists o calls,
    invoke Cases.failing Sample.inputs (Some "app_1") = (Ok o, calls) ∧
    success o = false ∧ response o = "connection reset".
Proof.
  destruct (run_returns_failure_response Cases.failing Sample.inputs (Some "app_1"))
    as (o & calls & Hinvoke & Hshape & _).
  exists o, calls. split; [exact Hinvoke|].
  vm_compute in Hshape. exact Hshape.
Defined.

(** ** The paused-agent check *)

Lemma pausedInProduction_prod (w : Collaborators) (workspaceId : string)
    (agentConfig : AgentConfig) :
  workspaceId ≠ "" ->
  isProdWorkspaceID w workspaceId = true ->
  agent_live agentConfig ≠ Some true ->
  pausedInProduction w (Some workspaceId) agentConfig = true.
Proof.
  intros Hws Hprod Hlive. unfold pausedInProduction.
  destruct (String.eqb_spec workspaceId ""); [done|].
  rewrite Hprod. by rewrite bool_decide_false.
Qed.

Lemma pausedInProduction_absent (w : Collaborators) (appId : option string)
    (agentConfig : AgentConfig) :
  present appId = None -> pausedInProduction w appId agentConfig = false.
Proof.
  unfold present, pausedInProduction. destruct appId as [workspaceId|]; [|done].
  by destruct (String.eqb workspaceId "").
Qed.

Lemma spanState_calls (w : Collaborators) :
  st_calls (spanState w) = [CallV4; CallTrace (v4 w)].
Proof. reflexivity. Qed.

(** C4, as stated, fails: the available tools are listed before the paused
    check, so when that listing throws for a paused agent in a production
    workspace the response is the normalized error, not the paused message. *)
Lemma paused_agent_tools_failure :
  let w := Sample.world Sample.pausedAgent (Throw Sample.toolsDown)
             (Ok Sample.finished) in
  getOrThrow w "agent_1" = Ok Sample.pausedAgent ∧
  agent_live Sample.pausedAgent ≠ Some true ∧
  isProdWorkspaceID w "app_1" = true ∧
  exists o calls,
    invoke w Sample.inputs (Some "app_1") = (Ok o, calls) ∧
    response o = "tools unavailable" ∧ response o ≠ pausedMessage.
Proof. repeat split; [done|]. by eexists _, _. Qed.

(** C4, amended: for every invocation with an agent id and a prompt where the
    resolved agent config has [live] not equal to [true] and the workspace id
    is recognized as a production workspace, [run] returns [success = false]
    without any model-backend client being constructed or called; when the
    listing of available tools that precedes the check succeeds, the outcome
    is the fixed paused message. *)
Theorem paused_agent_refused (w : Collaborators) (inputs : AgentStepInputs)
    (workspaceId a p : string) (agentConfig : AgentConfig) :
  present (agentId inputs) = Some a ->
  present (prompt inputs) = Some p ->
  getOrThrow w a = Ok agentConfig ->
  agent_live agentConfig ≠ Some true ->
  workspaceId ≠ "" ->
  isProdWorkspaceID w workspaceId = true ->
  exists o calls,
    invoke w inputs (Some workspaceId) = (Ok o, calls) ∧
    success o = false ∧
    Forall (fun c => isBackendCall c = false) calls ∧
    (forall allTools,
       getAvailableToolsMetadata w (agent_aiconfig agentConfig) = Ok allTools ->
       o = failure pausedMessage None).
Proof.
  intros Hagent Hprompt Hconfig Hlive Hws Hprod.
  pose proof (pausedInProduction_prod w workspaceId agentConfig Hws Hprod Hlive)
    as Hpaused.
  unfold invoke. rewrite run_unfold, Hagent, Hprompt.
  destruct (getAvailableToolsMetadata w (agent_aiconfig agentConfig))
    as [allTools|err] eqn:Htools.
  - destruct (runBody_paused w inputs a p (Some workspaceId) (v4 w) (spanState w)
                agentConfig allTools Hconfig Htools Hpaused) as (st' & -> & Hcalls).
    eexists _, _. split; [done|]. split; [done|]. split; [|done].
    rewrite Hcalls, spanState_calls. repeat constructor.
  - rewrite (runBody_tools_throw w inputs a p (Some workspaceId) (v4 w) (spanState w)
               agentConfig err Hconfig Htools), onError_unfold.
    eexists _, _. split; [done|]. split; [done|]. split; [|done].
    unfold pushCall. cbn [st_calls]. rewrite spanState_calls. repeat constructor.
Qed.

Lemma paused_agent_refused_witness :
  exists o calls,
    invoke (Sample.world Sample.pausedAgent (Ok Sample.allTools) (Ok Sample.finished))
           Sample.inputs (Some "app_1") = (Ok o, calls) ∧
    success o = false ∧
    Forall (fun c => isBackendCall c = false) calls ∧
    (forall allTools,
       getAvailableToolsMetadata
         (Sample.world Sample.pausedAgent (Ok Sample.allTools) (Ok Sample.finished))
         (agent_aiconfig Sample.pausedAgent) = Ok allTools ->
       o = failure pausedMessage None).
Proof.
  apply (paused_agent_refused _ Sample.inputs "app_1" "agent_1" "What is 6 x 7?");
    first [reflexivity | discriminate].
Defined.

(** C9: when the workspace id is absent (or empty) the paused check is
    skipped whatever the [live] flag of the agent says: once the agent and
    its tools have resolved, [run] goes on to build the prompt and tools,
    never tags the span as paused and, when the model config resolves too,
    builds the backend client. *)
Theorem absent_appId_skips_paused_check (w : Collaborators)
    (inputs : AgentStepInputs) (appId : option string) (a p : string)
    (agentConfig : AgentConfig) (allTools : list ToolMetadata)
    (r : Result AgentStepOutputs) (calls : list Call) :
  present appId = None ->
  present (agentId inputs) = Some a ->
  present (prompt inputs) = Some p ->
  getOrThrow w a = Ok agentConfig ->
  getAvailableToolsMetadata w (agent_aiconfig agentConfig) = Ok allTools ->
  invoke w inputs appId = (r, calls) ->
  pausedInProduction w appId agentConfig = false ∧
  CallBuildPromptAndTools (agent_name agentConfig) ∈ calls ∧
  (CallAnnotate AnnPaused ∉ calls) ∧
  (forall promptAndTools modelConfig,
     buildPromptAndTools w agentConfig = Ok promptAndTools ->
     getLiteLLMModelConfigOrThrow w (agent_aiconfig agentConfig) = Ok modelConfig ->
     CallCreateLiteLLMOpenAI (mc_apiKey modelConfig) (mc_baseUrl modelConfig) (v4 w)
       ∈ calls).
Proof.
  intros Happ Hagent Hprompt Hconfig Htools Hinvoke.
  pose proof (pausedInProduction_absent w appId agentConfig Happ) as Hpaused.
  split; [done|].
  apply invoke_run in Hinvoke as (st & Hrun & <-).
  rewrite run_unfold, Hagent, Hprompt in Hrun.
  destruct (runBody w inputs a p appId (v4 w) (spanState w)) as [r' st'] eqn:Hbody.
  destruct (runBody_proceeds w inputs a p appId (v4 w) (spanState w) st' r'
              agentConfig allTools Hconfig Htools Hpaused Hbody)
    as (Hbuild & Hnotag & Hclient).
  assert (CallAnnotate AnnPaused ∉ st_calls st') as Hclean.
  { intros Hin. apply Hnotag in Hin. rewrite spanState_calls in Hin.
    apply elem_of_cons in Hin as [Hin|Hin]; [discriminate|].
    apply list_elem_of_singleton in Hin. discriminate. }
  destruct r' as [o|err].
  - inversion Hrun; subst. done.
  - rewrite onError_unfold in Hrun. inversion Hrun; subst. clear Hrun.
    split; [in_calls|]. split.
    + intros Hin. split_calls Hin; try discriminate Hin. done.
    + intros promptAndTools modelConfig Hp Hm.
      specialize (Hclient promptAndTools modelConfig Hp Hm). in_calls.
Qed.

Lemma absent_appId_skips_paused_check_witness :
  pausedInProduction
    (Sample.world Sample.pausedAgent (Ok Sample.allTools) (Ok Sample.finished))
    None Sample.pausedAgent = false ∧
  CallBuildPromptAndTools "Support"
    ∈ (invoke (Sample.world Sample.pausedAgent (Ok Sample.allTools)
                 (Ok Sample.finished)) Sample.inputs None).2.
Proof.
  destruct (absent_appId_skips_paused_check
              (Sample.world Sample.pausedAgent (Ok Sample.allTools)
                 (Ok Sample.finished))
              Sample.inputs None "agent_1" "What is 6 x 7?" Sample.pausedAgent
              Sample.allTools _ _
              eq_refl eq_refl eq_refl eq_refl eq_refl eq_refl)
    as (Hpaused & Hbuild & _).
  split; [exact Hpaused | exact Hbuild].
Defined.

(** ** The exception path *)

(** The stream of [Sample.broken] had yielded a message with four tool calls
    when it broke; the trace of the failure outcome still has no
    [usedTools]. *)
Example broken_stream_trace :
  (invoke (Sample.world Sample.liveAgent (Ok Sample.allTools) (Ok Sample.broken))
          Sample.inputs (Some "app_1")).1
  = Ok (failure "connection reset"
          (Some (mkLog (Some [Sample.search; Sample.mailer]) None
                   (Some (mkModelInfo (Some "model_1") (Some "gpt")
                            (Some "http://litellm:4000")))))).
Proof. vm_compute. reflexivity. Qed.

(** C10: on the exception path the failure outcome's [agentTrace] never
    contains [usedTools], however many tool calls the agent had completed
    when the [try] block threw: the [catch] block builds the decision log
    without the assistant message, from the enabled tools and model identity
    known at that point. *)
Theorem caught_error_trace_has_no_usedTools (w : Collaborators)
    (inputs : AgentStepInputs) (appId : option string) (a p : string)
    (err : JsValue) (st : RunState) :
  present (agentId inputs) = Some a ->
  present (prompt inputs) = Some p ->
  runBody w inputs a p appId (v4 w) (spanState w) = (Throw err, st) ->
  exists t calls,
    invoke w inputs appId = (Ok (failure (getError w err) (Some t)), calls) ∧
    t = buildAgentDecisionLog (st_enabledTools st) None
          (st_modelId st) (st_modelName st) (st_baseUrl st) ∧
    log_usedTools t = None.
Proof.
  intros Hagent Hprompt Hbody.
  unfold invoke. rewrite run_unfold, Hagent, Hprompt, Hbody, onError_unfold.
  eexists _, _. split; [done|]. split; [done|].
  by rewrite usedTools_counted.
Qed.

Lemma caught_error_trace_has_no_usedTools_witness :
  exists t calls,
    invoke (Sample.world Sample.liveAgent (Ok Sample.allTools) (Ok Sample.broken))
           Sample.inputs (Some "app_1")
    = (Ok (failure "connection reset" (Some t)), calls) ∧
    log_usedTools t = None.
Proof.
  destruct (caught_error_trace_has_no_usedTools
              (Sample.world Sample.liveAgent (Ok Sample.allTools) (Ok Sample.broken))
              Sample.inputs (Some "app_1") "agent_1" "What is 6 x 7?"
              (JsObject [("name", JsString "APICallError");
                         ("message", JsString "connection reset")])
              _ eq_refl eq_refl eq_refl)
    as (t & calls & Hinvoke & _ & Hused).
  exists t, calls. split; [exact Hinvoke | exact Hused].
Defined.

(** ** Structured output *)

(** Whatever the run does, a stream call carries a constraint only if one
    was requested, and so does the outcome an output. *)
Lemma output_only_when_requested (w : Collaborators) (inputs : AgentStepInputs)
    (appId : option string) (o : AgentStepOutputs) (calls : list Call) :
  invoke w inputs appId = (Ok o, calls) ->
  (forall settings q,
     CallAgentStream settings q ∈ calls ->
     (is_Some (set_output settings) <-> structuredOutputRequested inputs)) ∧
  (useStructuredOutput inputs ≠ Some true -> output o = None) ∧
  (success o = true ->
   (is_Some (output o) <-> structuredOutputRequested inputs)).
Proof.
  intros Hinvoke. apply invoke_run in Hinvoke as (st & Hrun & <-).
  rewrite run_unfold in Hrun.
  destruct (present (agentId inputs)) as [a|];
    [|inversion Hrun; subst; split;
      [intros settings q Hin; by apply elem_of_nil in Hin | done]].
  destruct (present (prompt inputs)) as [p|];
    [|inversion Hrun; subst; split;
      [intros settings q Hin; by apply elem_of_nil in Hin | done]].
  destruct (runBody w inputs a p appId (v4 w) (spanState w)) as [r' st'] eqn:Hbody.
  assert (forall settings q,
            CallAgentStream settings q ∈ st_calls st' ->
            (is_Some (set_output settings) <-> structuredOutputRequested inputs))
    as Hstream.
  { intros settings q Hin.
    destruct (runBody_stream_calls w inputs a p appId (v4 w) (spanState w) st' r'
                settings q Hbody Hin) as [Hspan|[_ Hout]].
    - rewrite spanState_calls in Hspan.
      apply elem_of_cons in Hspan as [Hspan|Hspan]; [discriminate|].
      apply list_elem_of_singleton in Hspan. discriminate.
    - by rewrite <- attachesOutput_spec. }
  destruct r' as [o'|err].
  - inversion Hrun; subst. split; [done|].
    apply runBody_returns in Hbody as (agentConfig & allTools & _ & _ & Hend).
    destruct (pausedInProduction w appId agentConfig); [by subst o|].
    destruct Hend as (_ & _ & Hout). rewrite attachesOutput_spec in Hout.
    split; [|done]. intros Hflag.
    destruct (output o) as [out|]; [|done].
    assert (structuredOutputRequested inputs) as [Hyes _] by (apply Hout; eauto).
    done.
  - rewrite onError_unfold in Hrun. inversion Hrun; subst. split; [|done].
    intros settings q Hin. split_calls Hin; try discriminate Hin.
    by apply (Hstream settings q).
Qed.

(** ** The step bound *)

Section LoopFacts.

Import ToolLoop.

Variable backend : string -> list Part -> ModelReply.
Variable runTool : string -> JsValue -> JsValue.

(** The loop never makes more model calls than it has steps left. *)
Lemma loop_modelCalls_le (remaining : nat) (q : string) (parts : list Part)
    (steps : nat) :
  (modelCalls (loop backend runTool remaining q parts steps) ≤ steps + remaining)%nat.
Proof.
  revert parts steps.
  induction remaining as [|remaining IH]; intros parts steps; simpl; [lia|].
  destruct (backend q parts) as [text|toolName input|err]; simpl; [lia| |lia].
  etrans; [apply IH | lia].
Qed.

(** Against a greedy backend the loop uses up every step, stops without an
    error, and its final message is the state that the last step produced. *)
Lemma loop_greedy (q : string) (remaining : nat) (parts : list Part)
    (steps : nat) :
  greedy backend q ->
  let out := loop backend runTool remaining q parts steps in
  status out = ABORTED ∧
  modelCalls out = (steps + remaining)%nat ∧
  length (finalMessage out) = (length parts + remaining)%nat ∧
  ((0 < remaining)%nat ->
   exists earlier toolName input,
     backend q earlier = ToolCallRequest toolName input ∧
     finalMessage out
     = earlier ++ [ToolPart toolName input (runTool toolName input)]).
Proof.
  intros Hgreedy. revert parts steps.
  induction remaining as [|remaining IH]; intros parts steps; simpl.
  - repeat split; lia.
  - destruct (Hgreedy parts) as (toolName & input & Hreply). rewrite Hreply.
    specialize (IH (parts ++ [ToolPart toolName input (runTool toolName input)])
                   (S steps)).
    simpl in IH. destruct IH as (Hstatus & Hcalls & Hlen & Hlast).
    rewrite length_app in Hlen. simpl in Hlen.
    repeat split; [done | lia | lia |]. intros _.
    destruct remaining as [|remaining]; [|apply Hlast; lia].
    simpl. eauto.
Qed.

End LoopFacts.

(** C8: every [agent.stream] call that [run] makes carries the step bound 30,
    and the tool loop run with those settings makes at most 30 model calls
    against any backend; against a backend that asks for another tool call
    on every step it makes exactly 30, never a 31st, and ends without an
    error with the state produced by the 30th step as its final message. *)
Theorem tool_loop_stops_at_step_bound (w : Collaborators)
    (inputs : AgentStepInputs) (appId : option string)
    (r : Result AgentStepOutputs) (calls : list Call)
    (settings : AgentSettings) (q : string)
    (backend : string -> list ToolLoop.Part -> ToolLoop.ModelReply)
    (runTool : string -> JsValue -> JsValue) :
  invoke w inputs appId = (r, calls) ->
  CallAgentStream settings q ∈ calls ->
  let out := ToolLoop.stream backend runTool settings q in
  set_stopWhen settings = 30 ∧
  (ToolLoop.modelCalls out ≤ 30)%nat ∧
  (ToolLoop.greedy backend q ->
   ToolLoop.status out = ToolLoop.ABORTED ∧
   ToolLoop.modelCalls out = 30 ∧
   length (ToolLoop.finalMessage out) = 30 ∧
   exists earlier toolName input,
     backend q earlier = ToolLoop.ToolCallRequest toolName input ∧
     ToolLoop.finalMessage out
     = earlier ++ [ToolLoop.ToolPart toolName input (runTool toolName input)]).
Proof.
  intros Hinvoke Hin out.
  assert (set_stopWhen settings = 30) as Hbound.
  { apply invoke_run in Hinvoke as (st & Hrun & <-).
    rewrite run_unfold in Hrun.
    destruct (present (agentId inputs)) as [a|];
      [|inversion Hrun; subst; by apply elem_of_nil in Hin].
    destruct (present (prompt inputs)) as [p|];
      [|inversion Hrun; subst; by apply elem_of_nil in Hin].
    destruct (runBody w inputs a p appId (v4 w) (spanState w)) as [r' st'] eqn:Hbody.
    assert (CallAgentStream settings q ∈ st_calls st') as Hin'.
    { destruct r' as [o|err]; [by inversion Hrun; subst|].
      rewrite onError_unfold in Hrun. inversion Hrun; subst.
      split_calls Hin; try discriminate Hin. done. }
    destruct (runBody_stream_calls w inputs a p appId (v4 w) (spanState w) st' r'
                settings q Hbody Hin') as [Hspan|[Hstop _]]; [|done].
    rewrite spanState_calls in Hspan.
    apply elem_of_cons in Hspan as [Hspan|Hspan]; [discriminate|].
    apply list_elem_of_singleton in Hspan. discriminate. }
  subst out. unfold ToolLoop.stream. rewrite Hbound.
  split; [done|]. split.
  - apply (loop_modelCalls_le backend runTool 30 q [] 0).
  - intros Hgreedy.
    destruct (loop_greedy backend runTool q 30 [] 0 Hgreedy)
      as (Hstatus & Hcalls & Hlen & Hlast).
    repeat split; [done..|]. apply Hlast. lia.
Qed.

Lemma tool_loop_stops_at_step_bound_witness :
  let settings :=
    mkSettings "model_1" (Some "You are helpful.") [("search", JsNull)] 30 "gpt" None in
  let out :=
    ToolLoop.stream Sample.greedyBackend Sample.echoTool settings "What is 6 x 7?" in
  set_stopWhen settings = 30 ∧
  ToolLoop.status out = ToolLoop.ABORTED ∧
  ToolLoop.modelCalls out = 30 ∧
  length (ToolLoop.finalMessage out) = 30.
Proof.
  intros settings out.
  destruct (tool_loop_stops_at_step_bound
              (Sample.world Sample.liveAgent (Ok Sample.allTools) (Ok Sample.finished))
              Sample.inputs (Some "app_1") _ _ settings "What is 6 x 7?"
              Sample.greedyBackend Sample.echoTool eq_refl)
    as (Hbound & _ & Hgreedy).
  - vm_compute. do 9 right. left.
  - destruct Hgreedy as (Hstatus & Hcalls & Hlen & _).
    + intros parts. exists "search", JsNull. reflexivity.
    + split; [exact Hbound|]. split; [exact Hstatus|].
      split; [exact Hcalls | exact Hlen].
Defined.

(** * Further properties *)

(** ** The histogram of the decision log *)

Lemma usedTools_entries
    (enabledTools : option (list ToolMetadata)) (assistantMessage : option UIMessage)
    (modelId modelName baseUrl : option string) :
  default []
    (log_usedTools
       (buildAgentDecisionLog enabledTools assistantMessage modelId modelName baseUrl))
  = map toUsedTool (countToolCalls assistantMessage).
Proof.
  unfold buildAgentDecisionLog, CountMap.entries. cbn [log_usedTools].
  change (fun '(name, count) => mkUsed name count) with toUsedTool.
  by destruct (map toUsedTool (countToolCalls assistantMessage)).
Qed.

Lemma countedToolName_nonempty (part : JsValue) (n : string) :
  countedToolName part = Some n -> n ≠ "".
Proof.
  unfold countedToolName. destruct (statedToolName part) as [m|]; [|done].
  destruct (String.eqb_spec m "") as [->|Hne]; [done|]. by intros [= <-].
Qed.

Lemma occurrences_pos (n : string) (l : list string) :
  n ∈ l -> (0 < occurrences n l)%nat.
Proof.
  intros Hin. unfold occurrences.
  assert (n ∈ filter (fun m => m = n) l) as Hf by (by apply list_elem_of_filter).
  destruct (filter (fun m => m = n) l); [by apply elem_of_nil in Hf | simpl; lia].
Qed.

Lemma histogram_names (names : list string) :
  map used_name (histogram names) = firstSeen names.
Proof.
  unfold histogram. rewrite map_map. simpl. apply map_id.
Qed.

(** The entries of [usedTools] have pairwise distinct, non-empty names and
    counts of at least one, and [usedTools] is never an empty list. *)
Theorem usedTools_distinct_positive
    (enabledTools : option (list ToolMetadata)) (assistantMessage : option UIMessage)
    (modelId modelName baseUrl : option string) (used : list UsedTool) :
  log_usedTools
    (buildAgentDecisionLog enabledTools assistantMessage modelId modelName baseUrl)
  = Some used ->
  used ≠ [] ∧
  NoDup (map used_name used) ∧
  Forall (fun u => used_name u ≠ "" ∧ (1 ≤ used_count u)%nat) used.
Proof.
  rewrite usedTools_counted. unfold countedUsedTools.
  set (names := omap countedToolName (messageParts assistantMessage)).
  destruct (histogram names) as [|u h] eqn:Hh; [done|].
  intros [= <-]. rewrite <- Hh. split; [by rewrite Hh|]. split.
  - rewrite histogram_names. apply NoDup_firstSeen.
  - apply Forall_forall. intros v Hv. unfold histogram in Hv.
    apply list_elem_of_fmap in Hv as (n & -> & Hn). simpl.
    rewrite elem_of_firstSeen in Hn. split.
    + unfold names in Hn. apply list_elem_of_omap in Hn as (part & _ & Hpart).
      by eapply countedToolName_nonempty.
    + by apply occurrences_pos.
Qed.

Lemma usedTools_distinct_positive_witness :
  NoDup (map used_name [mkUsed "search" 3; mkUsed "calculator" 1]) ∧
  Forall (fun u => used_name u ≠ "" ∧ (1 ≤ used_count u)%nat)
    [mkUsed "search" 3; mkUsed "calculator" 1].
Proof.
  apply (usedTools_distinct_positive None (Some Sample.answer) None None None).
  reflexivity.
Defined.

Lemma total_bump (m : CountMap.t) (n : string) :
  sum_list (map snd (bump m n)) = S (sum_list (map snd m)).
Proof.
  unfold bump. induction m as [|[k v] m IH]; simpl; [done|].
  destruct (String.eqb_spec n k) as [->|Hne]; simpl; [lia|].
  rewrite IH. lia.
Qed.

Lemma total_foldl_bump (names : list string) (m : CountMap.t) :
  sum_list (map snd (foldl bump m names))
  = (sum_list (map snd m) + length names)%nat.
Proof.
  revert m. induction names as [|n names IH]; intros m; simpl; [lia|].
  rewrite IH, total_bump. lia.
Qed.

(** The counts of [usedTools] add up to the number of parts that were
    counted: no tool call is counted twice or dropped. *)
Theorem usedTools_counts_add_up
    (enabledTools : option (list ToolMetadata)) (assistantMessage : option UIMessage)
    (modelId modelName baseUrl : option string) :
  sum_list
    (map used_count
       (default []
          (log_usedTools
             (buildAgentDecisionLog enabledTools assistantMessage
                modelId modelName baseUrl))))
  = length (omap countedToolName (messageParts assistantMessage)).
Proof.
  rewrite usedTools_entries. unfold countToolCalls.
  rewrite foldl_countPart, map_map.
  rewrite (map_ext (fun x => used_count (toUsedTool x)) snd) by (by intros [??]).
  by rewrite total_foldl_bump.
Qed.

(** [model] is omitted exactly when each of [modelId], [modelName] and
    [baseUrl] is undefined or the empty string; otherwise it carries the
    three as they were given. *)
Theorem model_omitted_iff
    (enabledTools : option (list ToolMetadata)) (assistantMessage : option UIMessage)
    (modelId modelName baseUrl : option string) :
  let log :=
    buildAgentDecisionLog enabledTools assistantMessage modelId modelName baseUrl in
  (log_model log = None <->
   present modelId = None ∧ present modelName = None ∧ present baseUrl = None) ∧
  (log_model log = None ∨
   log_model log = Some (mkModelInfo modelId modelName baseUrl)).
Proof.
  unfold buildAgentDecisionLog, Js.truthy_str, present. cbn [log_model].
  destruct modelId as [i|], modelName as [n|], baseUrl as [b|];
    repeat match goal with
           | |- context [String.eqb ?x ""] => destruct (String.eqb x "")
           end; simpl; split; try tauto; try (split; [done | by intros (?&?&?)]).
Qed.

(** The tool name is read from the [toolName] property only: a message none
    of whose parts has one yields no [usedTools], whatever the part types
    say. *)
Theorem parts_without_toolName_not_counted
    (enabledTools : option (list ToolMetadata)) (assistantMessage : option UIMessage)
    (modelId modelName baseUrl : option string) :
  Forall (fun part => Js.has_prop "toolName" part = false)
    (messageParts assistantMessage) ->
  log_usedTools
    (buildAgentDecisionLog enabledTools assistantMessage modelId modelName baseUrl)
  = None.
Proof.
  intros Hparts. rewrite usedTools_counted. unfold countedUsedTools.
  assert (omap countedToolName (messageParts assistantMessage) = []) as ->; [|done].
  induction Hparts as [|part parts Hpart _ IH]; [done|]. simpl.
  assert (countedToolName part = None) as ->; [|done].
  unfold countedToolName, statedToolName.
  destruct (isToolPartType (partType part)); [|done].
  destruct part as [| | | | | |props]; try done. simpl in *.
  destruct (Js.lookup_prop "toolName" props); [|done].
  by rewrite bool_decide_true in Hpart by eauto.
Qed.

Lemma parts_without_toolName_not_counted_witness :
  isToolPartType (partType Cases.staticToolPart) = true ∧
  log_usedTools
    (buildAgentDecisionLog None (Some Cases.staticCall) None None None) = None.
Proof.
  split; [reflexivity|].
  apply parts_without_toolName_not_counted.
  repeat constructor.
Defined.

(** ** The histogram as the message grows or is reordered *)

Lemma bump_keys (m : CountMap.t) (n : string) :
  map fst m `prefix_of` map fst (bump m n).
Proof.
  unfold bump. induction m as [|[k v] m IH]; simpl; [apply prefix_nil|].
  destruct (String.eqb_spec n k) as [->|Hne]; simpl; [done|].
  by apply prefix_cons.
Qed.

Lemma bump_entries (m : CountMap.t) (n k : string) (c : nat) :
  (k, c) ∈ m -> exists c', (k, c') ∈ bump m n ∧ (c ≤ c')%nat.
Proof.
  unfold bump. induction m as [|[k0 v0] m IH]; simpl; intros Hin.
  - by apply elem_of_nil in Hin.
  - apply elem_of_cons in Hin as [Hhead|Htail].
    + inversion Hhead; subst k0 v0.
      destruct (String.eqb_spec n k) as [->|Hne].
      * exists (c + 1)%nat. split; [left | lia].
      * exists c. split; [left | lia].
    + destruct (String.eqb_spec n k0) as [->|Hne].
      * exists c. split; [by right | lia].
      * destruct (IH Htail) as (c' & Hc' & Hle). exists c'. split; [by right | done].
Qed.

Lemma foldl_bump_grows (names : list string) (m : CountMap.t) :
  map fst m `prefix_of` map fst (foldl bump m names) ∧
  forall k c, (k, c) ∈ m ->
    exists c', (k, c') ∈ foldl bump m names ∧ (c ≤ c')%nat.
Proof.
  revert m. induction names as [|n names IH]; intros m; simpl.
  - split; [done|]. intros k c Hin. exists c. split; [done | lia].
  - destruct (IH (bump m n)) as [Hkeys Hentries]. split.
    + etrans; [apply bump_keys | done].
    + intros k c Hin. destruct (bump_entries m n k c Hin) as (c1 & Hc1 & Hle1).
      destruct (Hentries k c1 Hc1) as (c2 & Hc2 & Hle2).
      exists c2. split; [done | lia].
Qed.

(** Parts appended to a message never reorder or lower what was counted:
    the names of [usedTools] for the shorter message are a prefix of the
    names for the longer one, and every count can only grow. *)
Theorem usedTools_grow_with_message
    (enabledTools : option (list ToolMetadata)) (shorter longer : UIMessage)
    (appended : list JsValue) (modelId modelName baseUrl : option string) :
  messageParts (Some longer) = messageParts (Some shorter) ++ appended ->
  let used m :=
    default []
      (log_usedTools
         (buildAgentDecisionLog enabledTools (Some m) modelId modelName baseUrl)) in
  map used_name (used shorter) `prefix_of` map used_name (used longer) ∧
  forall u, u ∈ used shorter ->
    exists u', u' ∈ used longer ∧ used_name u' = used_name u ∧
               (used_count u ≤ used_count u')%nat.
Proof.
  intros Hparts used. unfold used. rewrite !usedTools_entries.
  unfold countToolCalls. rewrite Hparts, foldl_app, !foldl_countPart.
  set (m := foldl bump CountMap.empty
              (omap countedToolName (messageParts (Some shorter)))).
  destruct (foldl_bump_grows (omap countedToolName appended) m) as [Hkeys Hentries].
  split.
  - rewrite !map_map.
    rewrite !(map_ext (fun x => used_name (toUsedTool x)) fst) by (by intros [??]).
    done.
  - intros u Hu. apply list_elem_of_fmap in Hu as ([k c] & -> & Hin).
    destruct (Hentries k c Hin) as (c' & Hin' & Hle).
    exists (toUsedTool (k, c')). split; [|done].
    apply list_elem_of_fmap. by exists (k, c').
Qed.

Lemma usedTools_grow_with_message_witness :
  let used m :=
    default [] (log_usedTools (buildAgentDecisionLog None (Some m) None None None)) in
  map used_name (used Sample.partial) `prefix_of` map used_name (used Sample.answer).
Proof.
  apply (usedTools_grow_with_message None Sample.partial Sample.answer
           [Sample.toolPart "search"; Sample.toolPart "calculator";
            Sample.toolPart "search"; Sample.textPart "42"]).
  reflexivity.
Defined.

Lemma occurrences_Permutation (n : string) (l1 l2 : list string) :
  l1 ≡ₚ l2 -> occurrences n l1 = occurrences n l2.
Proof. intros Hperm. unfold occurrences. by rewrite Hperm. Qed.

Lemma histogram_Permutation (l1 l2 : list string) :
  l1 ≡ₚ l2 -> histogram l1 ≡ₚ histogram l2.
Proof.
  intros Hperm. unfold histogram.
  rewrite (map_ext (fun n => mkUsed n (occurrences n l1))
             (fun n => mkUsed n (occurrences n l2)))
    by (intros n; by rewrite (occurrences_Permutation n l1 l2)).
  apply Permutation_map.
  apply NoDup_Permutation; [apply NoDup_firstSeen..|].
  intros n. rewrite !elem_of_firstSeen. by rewrite Hperm.
Qed.

(** Reordering the parts of a message changes only the order of
    [usedTools]: the same names with the same counts come out. *)
Theorem usedTools_Permutation
    (enabledTools : option (list ToolMetadata)) (m1 m2 : option UIMessage)
    (modelId modelName baseUrl : option string) :
  messageParts m1 ≡ₚ messageParts m2 ->
  default []
    (log_usedTools (buildAgentDecisionLog enabledTools m1 modelId modelName baseUrl))
  ≡ₚ default []
       (log_usedTools (buildAgentDecisionLog enabledTools m2 modelId modelName baseUrl)).
Proof.
  intros Hperm. rewrite !usedTools_entries, !countToolCalls_tally.
  rewrite <- !histogram_tally. apply histogram_Permutation. by rewrite Hperm.
Qed.

Lemma usedTools_Permutation_witness :
  default []
    (log_usedTools (buildAgentDecisionLog None (Some Sample.answer) None None None))
  ≡ₚ default []
       (log_usedTools (buildAgentDecisionLog None (Some Cases.reordered) None None None)).
Proof.
  apply usedTools_Permutation. symmetry.
  apply (Permutation_middle [Sample.toolPart "search"; Sample.toolPart "search"]
           [Sample.toolPart "search"; Sample.textPart "42"]
           (Sample.toolPart "calculator")).
Defined.

(** ** The calls of one invocation *)

Lemma st_calls_pushCall (c : Call) (st : RunState) :
  st_calls (pushCall c st) = st_calls st ++ [c].
Proof. reflexivity. Qed.

Lemma st_enabledTools_pushCall (c : Call) (st : RunState) :
  st_enabledTools (pushCall c st) = st_enabledTools st.
Proof. reflexivity. Qed.

Lemma st_modelId_pushCall (c : Call) (st : RunState) :
  st_modelId (pushCall c st) = st_modelId st.
Proof. reflexivity. Qed.

Lemma st_modelName_pushCall (c : Call) (st : RunState) :
  st_modelName (pushCall c st) = st_modelName st.
Proof. reflexivity. Qed.

Lemma st_baseUrl_pushCall (c : Call) (st : RunState) :
  st_baseUrl (pushCall c st) = st_baseUrl st.
Proof. reflexivity. Qed.

(** Read the fields of the final state off the updates that led to it. *)
Ltac read_state H :=
  repeat (progress
    (cbn [st_calls st_enabledTools st_modelId st_modelName st_baseUrl
          initialState] in H;
     rewrite ?st_calls_pushCall, ?st_enabledTools_pushCall, ?st_modelId_pushCall,
       ?st_modelName_pushCall, ?st_baseUrl_pushCall in H));
  cbn [app] in H.

(** The next thing that the invocation recorded in [H] depends on, in the
    order of the source. *)
Ltac invoke_step H :=
  match type of H with
  | context [match present ?x with Some _ => _ | None => _ end] =>
      destruct (present x) eqn:?
  | context [if pausedInProduction ?w ?a ?c then _ else _] =>
      destruct (pausedInProduction w a c) eqn:?
  | context [buildOutputOption ?w ?i ?st] =>
      rewrite (buildOutputOption_unfold w i st) in H;
      destruct (attachesOutput i) eqn:?
  | context [let '(_, _) := ?p in _] => is_var p; destruct p
  | context [match ?r with Ok _ => _ | Throw _ => _ end] =>
      lazymatch r with
      | context [match _ with Ok _ => _ | Throw _ => _ end] => fail
      | context [let '(_, _) := _ in _] => fail
      | _ => destruct r eqn:?
      end
  end;
  cbn beta iota zeta in H.

(** Run the invocation recorded in [H] to its end, one goal per way it can
    end, with the calls it made spelled out. *)
Ltac exec_invoke H :=
  unfold invoke, run, spanState, onError, runBody, tryCatch,
    perform, annotate, logCall, assignEnabledTools, assignModel, modifyState,
    liftResult, getState, mbind, mret, M_bind, M_ret in H;
  cbn beta iota zeta in H;
  repeat invoke_step H;
  read_state H;
  inversion H; subst; clear H.

(** Membership in a list of calls that is spelled out. *)
Ltac call_cases H :=
  apply list_elem_of_In in H; cbn [In] in H;
  repeat match type of H with _ ∨ _ => destruct H as [H|H] end;
  try discriminate H; try contradiction.

(** The calls of one invocation follow the order of the source: a session
    id, the span, the agent, its tools, the prompt and tools, the model
    config, the client, the schema, the stream, the diagnostic.  Each is made
    at most once and none is made before an earlier one. *)
Theorem calls_follow_protocol (w : Collaborators) (inputs : AgentStepInputs)
    (appId : option string) (r : Result AgentStepOutputs) (calls : list Call) :
  invoke w inputs appId = (r, calls) ->
  StronglySorted lt (omap callRank calls).
Proof.
  intros H. exec_invoke H.
  all: simpl; repeat constructor.
Qed.

Lemma calls_follow_protocol_witness :
  exists r calls,
    invoke Cases.happy Sample.inputs (Some "app_1") = (r, calls) ∧
    StronglySorted lt (omap callRank calls).
Proof.
  eexists _, _. split; [vm_compute; reflexivity|].
  eapply (calls_follow_protocol Cases.happy Sample.inputs (Some "app_1")).
  vm_compute; reflexivity.
Defined.

(** One session id serves the whole invocation: with valid inputs the calls
    start with drawing it and opening the span under it, and every later call
    that carries a session id carries that one. *)
Theorem session_id_shared (w : Collaborators) (inputs : AgentStepInputs)
    (appId : option string) (r : Result AgentStepOutputs) (calls : list Call) :
  invoke w inputs appId = (r, calls) ->
  Forall (fun sessionId => sessionId = v4 w) (omap callSessionId calls) ∧
  (validationFails inputs = false ->
   exists rest, calls = CallV4 :: CallTrace (v4 w) :: rest).
Proof.
  intros H. unfold validationFails. exec_invoke H.
  all: simpl; split; [repeat constructor | first [done | intros _; eexists; reflexivity]].
Qed.

Lemma session_id_shared_witness :
  exists r calls,
    invoke Cases.happy Sample.inputs (Some "app_1") = (r, calls) ∧
    Forall (fun sessionId => sessionId = "6f1c2a") (omap callSessionId calls).
Proof.
  eexists _, _. split; [vm_compute; reflexivity|].
  eapply (session_id_shared Cases.happy Sample.inputs (Some "app_1")).
  vm_compute; reflexivity.
Defined.

(** A failure outcome carries neither usage, message nor output, and its
    response is one of the three fixed messages or the normalized error. *)
Theorem failure_carries_no_payload (w : Collaborators) (inputs : AgentStepInputs)
    (appId : option string) (o : AgentStepOutputs) (calls : list Call) :
  invoke w inputs appId = (Ok o, calls) ->
  success o = false ->
  usage o = None ∧ message o = None ∧ output o = None ∧
  (response o = noAgentMessage ∨ response o = noPromptMessage ∨
   response o = pausedMessage ∨ exists err, response o = getError w err).
Proof.
  intros H. exec_invoke H; cbn [success]; intros Hfail; try discriminate Hfail.
  all: cbn [failure usage message output response]; repeat split; eauto 6.
Qed.

Lemma failure_carries_no_payload_witness :
  exists o calls,
    invoke Cases.failing Sample.inputs (Some "app_1") = (Ok o, calls) ∧
    usage o = None ∧ message o = None ∧ output o = None.
Proof.
  eexists _, _. split; [vm_compute; reflexivity|].
  edestruct (failure_carries_no_payload Cases.failing Sample.inputs (Some "app_1"))
    as (Hu & Hm & Ho & _); [vm_compute; reflexivity | reflexivity |].
  split; [exact Hu|]. split; [exact Hm | exact Ho].
Defined.

Lemma readUIMessageStream_Ok (streamResult : StreamResult)
    (assistantMessage : option UIMessage) :
  readUIMessageStream streamResult = Ok assistantMessage ->
  sr_streamError streamResult = None ∧
  assistantMessage = last (sr_messages streamResult).
Proof.
  unfold readUIMessageStream.
  destruct (sr_streamError streamResult); [done|]. intros [= <-]. split; [done|].
  induction (sr_messages streamResult) as [|m l IH] using rev_ind; [done|].
  by rewrite foldl_snoc, last_snoc.
Qed.

(** A success outcome reports the stream as it was read: the response is the
    stream's text, the usage its usage, the message the last snapshot it
    yielded; and the decision log is built from that same message and from
    the tools resolved at the start. *)
Theorem success_reports_stream (w : Collaborators) (inputs : AgentStepInputs)
    (appId : option string) (o : AgentStepOutputs) (calls : list Call) :
  invoke w inputs appId = (Ok o, calls) ->
  success o = true ->
  exists settings q streamResult u t,
    CallAgentStream settings q ∈ calls ∧
    agentStream w settings q = Ok streamResult ∧
    sr_streamError streamResult = None ∧
    message o = last (sr_messages streamResult) ∧
    sr_text streamResult = Ok (response o) ∧
    sr_usage streamResult = Ok u ∧ usage o = Some u ∧
    agentTrace o = Some t ∧
    log_usedTools t = countedUsedTools (message o) ∧
    log_enabledTools t = resolvedTools w inputs.
Proof.
  intros H. unfold resolvedTools.
  exec_invoke H; cbn [success]; intros Hok; try discriminate Hok.
  all: match goal with
       | Hread : readUIMessageStream _ = Ok _ |- _ =>
           apply readUIMessageStream_Ok in Hread as [Herr ->]
       end.
  all: eexists _, _, _, _, _; cbn [message response usage agentTrace].
  all: split; [apply list_elem_of_In; cbn [In]; eauto 12|].
  all: split; [eassumption|]; split; [done|]; split; [done|].
  all: split; [done|]; split; [eassumption|]; split; [done|]; split; [done|].
  all: split; [apply usedTools_counted | done].
Qed.

Lemma success_reports_stream_witness :
  exists o calls,
    invoke Cases.happy Sample.inputs (Some "app_1") = (Ok o, calls) ∧
    exists t, agentTrace o = Some t ∧
              log_usedTools t = countedUsedTools (message o).
Proof.
  eexists _, _. split; [vm_compute; reflexivity|].
  edestruct (success_reports_stream Cases.happy Sample.inputs (Some "app_1"))
    as (_ & _ & _ & _ & t & _ & _ & _ & _ & _ & _ & _ & Ht & Hused & _);
    [vm_compute; reflexivity | reflexivity |].
  exists t. split; [exact Ht | exact Hused].
Defined.

(** The decision log of a caught failure is best effort: it has the enabled
    tools exactly when the agent and its tools had resolved, and a model only
    when the model config had, with the three identity fields of that
    config. *)
Theorem failure_trace_reflects_progress (w : Collaborators)
    (inputs : AgentStepInputs) (appId : option string) (o : AgentStepOutputs)
    (calls : list Call) (t : AgentDecisionLog) :
  invoke w inputs appId = (Ok o, calls) ->
  success o = false ->
  agentTrace o = Some t ->
  log_enabledTools t = resolvedTools w inputs ∧
  (is_Some (log_model t) ->
   exists aiconfig modelConfig,
     CallGetLiteLLMModelConfigOrThrow aiconfig ∈ calls ∧
     getLiteLLMModelConfigOrThrow w aiconfig = Ok modelConfig ∧
     log_model t = Some (mkModelInfo (Some (mc_modelId modelConfig))
                           (Some (mc_modelName modelConfig))
                           (Some (mc_baseUrl modelConfig)))).
Proof.
  intros H. unfold resolvedTools.
  exec_invoke H; cbn [success failure agentTrace]; intros Hfail Ht;
    try discriminate Hfail; try discriminate Ht.
  all: inversion Ht; subst t; clear Ht.
  all: split; [done|]; cbn [buildAgentDecisionLog log_model Js.truthy_str orb].
  all: try (intros [? ?]; discriminate).
  all: intros Hmodel; eexists _, _.
  all: split; [apply list_elem_of_In; cbn [In]; eauto 12|].
  all: split; [eassumption|].
  all: unfold buildAgentDecisionLog in *; cbn [log_model] in *.
  all: by destruct (_ || _).
Qed.

Lemma failure_trace_reflects_progress_witness :
  exists o calls t,
    invoke Cases.failing Sample.inputs (Some "app_1") = (Ok o, calls) ∧
    agentTrace o = Some t ∧
    log_enabledTools t = Some [Sample.search; Sample.mailer].
Proof.
  eexists _, _, _. split; [vm_compute; reflexivity|]. split; [reflexivity|].
  etrans;
    [eapply (failure_trace_reflects_progress Cases.failing Sample.inputs (Some "app_1"));
     [vm_compute; reflexivity | reflexivity | reflexivity]
    |vm_compute; reflexivity].
Defined.

(** The span is tagged as paused, and the outcome is the paused refusal,
    exactly when the agent and its tools resolved and the check of line 131
    fired; a live agent, a development workspace or an absent workspace id
    never lead there. *)
Theorem paused_refusal_iff (w : Collaborators) (inputs : AgentStepInputs)
    (appId : option string) (o : AgentStepOutputs) (calls : list Call) :
  invoke w inputs appId = (Ok o, calls) ->
  (CallAnnotate AnnPaused ∈ calls <-> refusedAsPaused w inputs appId = true) ∧
  (o = failure pausedMessage None <-> refusedAsPaused w inputs appId = true) ∧
  (refusedAsPaused w inputs appId = true ->
   exists workspaceId,
     appId = Some workspaceId ∧ workspaceId ≠ "" ∧
     isProdWorkspaceID w workspaceId = true).
Proof.
  intros H. unfold refusedAsPaused. exec_invoke H.
  all: repeat match goal with
              | Heq : ?x = _ |- context [match ?x with _ => _ end] => rewrite Heq
              end.
  all: split; [split; [intros Hin; call_cases Hin; done | intros; try discriminate;
                                                    apply list_elem_of_In; cbn [In]; eauto 12]|].
  all: split; [split; [intros; try discriminate; done | intros; try discriminate; done]|].
  all: intros; try discriminate.
  all: match goal with
       | Hp : pausedInProduction _ _ _ = true |- _ =>
           unfold pausedInProduction in Hp;
           destruct appId as [workspaceId|]; [|discriminate Hp];
           destruct (String.eqb_spec workspaceId ""); [discriminate Hp|];
           destruct (isProdWorkspaceID w workspaceId) eqn:?; [|discriminate Hp];
           by exists workspaceId
       end.
Qed.

Lemma paused_refusal_iff_witness :
  exists o calls,
    invoke Cases.refusing Sample.inputs (Some "app_1") = (Ok o, calls) ∧
    (o = failure pausedMessage None
     <-> refusedAsPaused Cases.refusing Sample.inputs (Some "app_1") = true).
Proof.
  eexists _, _. split; [vm_compute; reflexivity|].
  eapply (paused_refusal_iff Cases.refusing Sample.inputs (Some "app_1")).
  vm_compute; reflexivity.
Defined.

(** The schema is normalized only when structured output is requested, and
    when normalizing it throws the agent is never streamed. *)
Theorem normalizer_failure_stops_before_stream (w : Collaborators)
    (inputs : AgentStepInputs) (appId : option string)
    (r : Result AgentStepOutputs) (calls : list Call) :
  invoke w inputs appId = (r, calls) ->
  (CallNormalizeSchema ∈ calls -> structuredOutputRequested inputs) ∧
  (forall schema err settings q,
     outputSchema inputs = Some schema ->
     normalizeSchemaForStructuredOutput w schema = Throw err ->
     structuredOutputRequested inputs ->
     CallAgentStream settings q ∉ calls).
Proof.
  intros H. exec_invoke H.
  all: split; [intros Hin; try (by apply attachesOutput_spec); call_cases Hin|].
  all: intros schema err' settings q Hschema Hthrow Hreq Hin.
  all: try (call_cases Hin; fail).
  all: try (apply attachesOutput_spec in Hreq; congruence).
  all: rewrite Hschema in *; simpl in *; congruence.
Qed.

Lemma normalizer_failure_stops_before_stream_witness :
  exists r calls,
    invoke Cases.happy Sample.structuredInputs (Some "app_1") = (r, calls) ∧
    (CallNormalizeSchema ∈ calls -> structuredOutputRequested Sample.structuredInputs).
Proof.
  eexists _, _. split; [vm_compute; reflexivity|].
  eapply (normalizer_failure_stops_before_stream Cases.happy Sample.structuredInputs
            (Some "app_1")).
  vm_compute; reflexivity.
Defined.

(** What the agent is streamed with: the caller's prompt unchanged, the model
    id and name of the resolved model config, the tools that
    [buildPromptAndTools] returned (the [enabledTools] filter of lines
    114-118 does not touch them) and the system prompt as instructions,
    left out when it is the empty string. *)
Theorem stream_call_settings (w : Collaborators) (inputs : AgentStepInputs)
    (appId : option string) (r : Result AgentStepOutputs) (calls : list Call)
    (settings : AgentSettings) (q : string) :
  invoke w inputs appId = (r, calls) ->
  CallAgentStream settings q ∈ calls ->
  present (prompt inputs) = Some q ∧
  exists a agentConfig systemPrompt tools modelConfig,
    present (agentId inputs) = Some a ∧
    getOrThrow w a = Ok agentConfig ∧
    buildPromptAndTools w agentConfig = Ok (systemPrompt, tools) ∧
    getLiteLLMModelConfigOrThrow w (agent_aiconfig agentConfig) = Ok modelConfig ∧
    set_model settings = mc_modelId modelConfig ∧
    set_providerOptions settings = mc_modelName modelConfig ∧
    set_tools settings = tools ∧
    set_instructions settings
    = (if decide (systemPrompt = "") then None else Some systemPrompt).
Proof.
  intros H Hin. exec_invoke H; call_cases Hin.
  all: inversion Hin; subst; clear Hin.
  all: split; [done|]; eexists _, _, _, _, _.
  all: repeat (split; [first [reflexivity | eassumption]|]).
  all: cbn [set_instructions].
  all: match goal with
       | |- context [String.eqb ?s ""] => destruct (String.eqb_spec s "")
       end; by case_decide.
Qed.

Lemma stream_call_settings_witness :
  exists r calls settings,
    invoke Cases.happy Sample.inputs (Some "app_1") = (r, calls) ∧
    CallAgentStream settings "What is 6 x 7?" ∈ calls ∧
    present (prompt Sample.inputs) = Some "What is 6 x 7?".
Proof.
  eexists _, _, _. split; [vm_compute; reflexivity|].
  split; [do 9 right; left|].
  eapply (stream_call_settings Cases.happy Sample.inputs (Some "app_1"));
    [vm_compute; reflexivity | do 9 right; left].
Defined.

(** The same steps on a goal that compares two invocations. *)
Ltac compare_step :=
  match goal with
  | |- context [match present ?x with Some _ => _ | None => _ end] =>
      destruct (present x)
  | |- context [if pausedInProduction ?w ?a ?c then _ else _] =>
      destruct (pausedInProduction w a c)
  | |- context [buildOutputOption ?w ?i ?st] =>
      rewrite (buildOutputOption_unfold w i st)
  | |- context [let '(_, _) := ?p in _] => is_var p; destruct p
  | |- context [match ?r with Ok _ => _ | Throw _ => _ end] =>
      lazymatch r with
      | context [match _ with Ok _ => _ | Throw _ => _ end] => fail
      | context [let '(_, _) := _ in _] => fail
      | _ => destruct r
      end
  end;
  cbn beta iota zeta.

(** Everything but the stream is the same in [withOutput out w] and [w]. *)
Ltac same_collaborators out w :=
  change (v4 (withOutput out w)) with (v4 w);
  change (getError (withOutput out w)) with (getError w);
  change (LITELLM_URL (withOutput out w)) with (LITELLM_URL w);
  change (isInThread (withOutput out w)) with (isInThread w);
  change (FORKED_PROCESS_NAME (withOutput out w)) with (FORKED_PROCESS_NAME w);
  change (getOrThrow (withOutput out w)) with (getOrThrow w);
  change (getAvailableToolsMetadata (withOutput out w))
    with (getAvailableToolsMetadata w);
  change (pausedInProduction (withOutput out w)) with (pausedInProduction w);
  change (buildPromptAndTools (withOutput out w)) with (buildPromptAndTools w);
  change (getLiteLLMModelConfigOrThrow (withOutput out w))
    with (getLiteLLMModelConfigOrThrow w);
  change (createLiteLLMOpenAI (withOutput out w)) with (createLiteLLMOpenAI w);
  change (buildOutputOption (withOutput out w)) with (buildOutputOption w);
  change (agentStream (withOutput out w))
    with (fun settings prompt =>
            match agentStream w settings prompt with
            | Ok streamResult =>
                Ok (mkStream (sr_messages streamResult) (sr_streamError streamResult)
                      (sr_text streamResult) (sr_usage streamResult) out)
            | Throw err => Throw err
            end).

Lemma readUIMessageStream_withOutput (streamResult : StreamResult)
    (out : Result JsRecord) :
  readUIMessageStream
    (mkStream (sr_messages streamResult) (sr_streamError streamResult)
       (sr_text streamResult) (sr_usage streamResult) out)
  = readUIMessageStream streamResult.
Proof. reflexivity. Qed.

(** Without an output constraint the [output] promise of the stream is never
    awaited: whatever it would resolve to or throw, the outcome and the
    calls are the same. *)
Theorem output_not_awaited_without_constraint (w : Collaborators)
    (inputs : AgentStepInputs) (appId : option string) (out : Result JsRecord) :
  attachesOutput inputs = false ->
  invoke (withOutput out w) inputs appId = invoke w inputs appId.
Proof.
  intros Hno.
  unfold invoke, run, spanState, onError, runBody, tryCatch, perform, annotate,
    logCall, assignEnabledTools, assignModel, modifyState, liftResult, getState,
    mbind, mret, M_bind, M_ret.
  same_collaborators out w.
  cbn beta iota zeta.
  repeat (compare_step;
          rewrite ?Hno, ?readUIMessageStream_withOutput;
          cbn beta iota zeta delta [sr_text sr_usage]).
  all: reflexivity.
Qed.

Lemma output_not_awaited_without_constraint_witness :
  invoke (withOutput (Throw JsNull) Cases.happy) Sample.inputs (Some "app_1")
  = invoke Cases.happy Sample.inputs (Some "app_1").
Proof.
  apply output_not_awaited_without_constraint. reflexivity.
Defined.

(** Validation checks the agent first: without an agent id the outcome is
    the no-agent failure whatever the prompt; with one and without a prompt
    it is the no-prompt failure. *)
Theorem validation_checks_agent_first (w : Collaborators) (inputs : AgentStepInputs)
    (appId : option string) :
  validationFails inputs = true ->
  invoke w inputs appId
  = (Ok (failure (if decide (present (agentId inputs) = None)
                  then noAgentMessage else noPromptMessage) None), []).
Proof.
  unfold validationFails, invoke. rewrite run_unfold.
  destruct (present (agentId inputs)) as [a|]; [|done].
  destruct (present (prompt inputs)) as [p|]; [done|].
  intros _. by rewrite decide_False.
Qed.

Lemma validation_checks_agent_first_witness :
  invoke Cases.happy (mkInputs None None None None) None
  = (Ok (failure noAgentMessage None), []).
Proof.
  apply (validation_checks_agent_first Cases.happy (mkInputs None None None None)).
  reflexivity.
Defined.

(** ** Automation events *)

Section EventFacts.

Import AutomationEvents.

Variable h : Host.
Variable automation : Automation.
Variable step : AutomationStep.

(** Outside a workspace the six publishers that describe an automation throw
    the error of the workspace lookup and publish nothing, while
    [run], which reads no workspace, still publishes its count. *)
Theorem publishers_need_workspace (err : JsValue) (timestamp : option JsValue)
    (count : Z) :
  getOrThrowWorkspaceId h = Throw err ->
  Forall (fun result => result = (Throw err, []))
    [created h automation timestamp; triggerUpdated h automation;
     deleted h automation; tested h automation;
     stepCreated h automation step timestamp; stepDeleted h automation step] ∧
  (AutomationEvents.run h count timestamp).2
  = [mkPublished AUTOMATIONS_RUN [("count", JsNumber count)] timestamp].
Proof.
  intros Hws. split; [|done].
  unfold created, triggerUpdated, deleted, tested, stepCreated, stepDeleted.
  rewrite Hws. repeat constructor.
Qed.

(** Inside a workspace each of the six publishes exactly one event, of its
    own kind, that names the workspace, the automation and its trigger (both
    undefined when the automation has no definition or no trigger); the
    caller's timestamp is passed on by [created] and [stepCreated] only, and
    the result is that of [publishEvent]. *)
Theorem publishers_describe_automation (appId : string)
    (timestamp : option JsValue) :
  getOrThrowWorkspaceId h = Ok appId ->
  Forall (fun '(event, stamp, (result, published)) =>
            exists p,
              published = [p] ∧ pub_event p = event ∧ pub_timestamp p = stamp ∧
              describes appId automation p ∧
              result = publishEvent h event (pub_properties p) stamp)
    [(AUTOMATION_CREATED, timestamp, created h automation timestamp);
     (AUTOMATION_TRIGGER_UPDATED, None, triggerUpdated h automation);
     (AUTOMATION_DELETED, None, deleted h automation);
     (AUTOMATION_TESTED, None, tested h automation);
     (AUTOMATION_STEP_CREATED, timestamp, stepCreated h automation step timestamp);
     (AUTOMATION_STEP_DELETED, None, stepDeleted h automation step)].
Proof.
  intros Hws.
  unfold created, triggerUpdated, deleted, tested, stepCreated, stepDeleted, publish.
  rewrite Hws.
  repeat (constructor; [eexists; repeat split; reflexivity|]).
  constructor.
Qed.

(** An event and its counterpart carry the same properties: what [created]
    publishes for an automation is what [deleted] publishes for it, and
    likewise for [triggerUpdated] and [tested] and for [stepCreated] and
    [stepDeleted]. *)
Theorem paired_events_share_properties (timestamp : option JsValue) :
  pub_properties <$> (created h automation timestamp).2
  = pub_properties <$> (deleted h automation).2 ∧
  pub_properties <$> (triggerUpdated h automation).2
  = pub_properties <$> (tested h automation).2 ∧
  pub_properties <$> (stepCreated h automation step timestamp).2
  = pub_properties <$> (stepDeleted h automation step).2.
Proof.
  unfold created, triggerUpdated, deleted, tested, stepCreated, stepDeleted.
  by destruct (getOrThrowWorkspaceId h).
Qed.

End EventFacts.

Lemma publishers_need_workspace_witness :
  AutomationEvents.created Cases.noWorkspace Cases.automation None
  = (Throw (JsString "Workspace id not found"), []).
Proof.
  destruct (publishers_need_workspace Cases.noWorkspace Cases.automation Cases.step
              (JsString "Workspace id not found") None 1 eq_refl) as [Hall _].
  by inversion Hall.
Defined.

Lemma publishers_describe_automation_witness :
  exists p,
    (AutomationEvents.stepDeleted Cases.inWorkspace Cases.automation Cases.step).2 = [p] ∧
    AutomationEvents.describes "app_1" Cases.automation p.
Proof.
  pose proof (publishers_describe_automation Cases.inWorkspace Cases.automation
                Cases.step "app_1" None eq_refl) as Hall.
  do 5 (apply Forall_cons in Hall as [_ Hall]).
  apply Forall_cons in Hall as [(p & Hp & _ & _ & Hd & _) _].
  exists p. split; [exact Hp | exact Hd].
Defined.

(** ** The output constraint and the diagnostic, path by path *)

(** Bring the results that the run met in line with the ones assumed. *)
Ltac agree :=
  repeat first
    [ progress simplify_eq
    | match goal with
      | H1 : ?x = _, H2 : ?x = _ |- _ => rewrite H1 in H2
      end ].

Lemma outputConstraint_requested (w : Collaborators) (inputs : AgentStepInputs)
    (constraint : option JsRecord) :
  outputConstraint w inputs = Ok constraint ->
  (is_Some constraint <-> structuredOutputRequested inputs).
Proof.
  unfold outputConstraint. rewrite <- attachesOutput_spec.
  destruct (attachesOutput inputs).
  - destruct (normalizeSchemaForStructuredOutput w _); [|done].
    intros [= <-]. split; [done | by eexists].
  - intros [= <-]. split; [by intros [? ?] | done].
Qed.

(** C7: when [run] gets as far as building the agent, the output constraint
    is attached to it if and only if [useStructuredOutput] is true and
    [outputSchema] is a non-empty object: the one [agent.stream] call is
    made with the normalized schema as constraint in that case and with none
    otherwise.  When [useStructuredOutput] is not true the outcome's
    [output] is undefined even if a schema was supplied; and when the stream
    is read to its end, the outcome is a success that carries the stream's
    structured output if the constraint was attached and no [output] if it
    was not. *)
Theorem structured_output_attached_iff_requested (w : Collaborators)
    (inputs : AgentStepInputs) (appId : option string) (a p : string)
    (agentConfig : AgentConfig) (allTools : list ToolMetadata)
    (systemPrompt : string) (tools : JsRecord) (modelConfig : ModelConfig)
    (constraint : option JsRecord) :
  present (agentId inputs) = Some a ->
  present (prompt inputs) = Some p ->
  getOrThrow w a = Ok agentConfig ->
  getAvailableToolsMetadata w (agent_aiconfig agentConfig) = Ok allTools ->
  pausedInProduction w appId agentConfig = false ->
  buildPromptAndTools w agentConfig = Ok (systemPrompt, tools) ->
  getLiteLLMModelConfigOrThrow w (agent_aiconfig agentConfig) = Ok modelConfig ->
  createLiteLLMOpenAI w (mc_apiKey modelConfig) (mc_baseUrl modelConfig) (v4 w)
  = Ok tt ->
  outputConstraint w inputs = Ok constraint ->
  let settings := agentSettings modelConfig systemPrompt tools constraint in
  (is_Some constraint <-> structuredOutputRequested inputs) ∧
  exists o calls,
    invoke w inputs appId = (Ok o, calls) ∧
    CallAgentStream settings p ∈ calls ∧
    (forall settings' q,
       CallAgentStream settings' q ∈ calls -> settings' = settings ∧ q = p) ∧
    (useStructuredOutput inputs ≠ Some true -> constraint = None ∧ output o = None) ∧
    (forall streamResult assistantMessage text used,
       agentStream w settings p = Ok streamResult ->
       readUIMessageStream streamResult = Ok assistantMessage ->
       sr_text streamResult = Ok text ->
       sr_usage streamResult = Ok used ->
       match constraint with
       | None => success o = true ∧ output o = None
       | Some _ =>
           forall out, sr_output streamResult = Ok out ->
                       success o = true ∧ output o = Some out
       end).
Proof.
  intros Ha Hp Hagent Htools Hpaused Hprompt Hmodel Hclient Hconstraint settings.
  pose proof (outputConstraint_requested w inputs constraint Hconstraint) as Hiff.
  split; [exact Hiff|].
  assert (useStructuredOutput inputs ≠ Some true -> constraint = None) as Hflag.
  { intros Hno. destruct constraint as [c|]; [|done].
    destruct Hiff as [Hreq _]. destruct Hreq as [Hyes _]; [by eexists | done]. }
  subst settings. unfold agentSettings, outputConstraint in *.
  destruct (invoke w inputs appId) as [r calls] eqn:H.
  unfold invoke, run, spanState, onError, runBody, tryCatch, perform, annotate,
    logCall, assignEnabledTools, assignModel, modifyState, liftResult, getState,
    mbind, mret, M_bind, M_ret in H.
  cbn beta iota zeta in H.
  rewrite Ha in H; cbn beta iota zeta in H.
  rewrite Hp in H; cbn beta iota zeta in H.
  rewrite Hagent in H; cbn beta iota zeta in H.
  rewrite Htools in H; cbn beta iota zeta in H.
  rewrite Hpaused in H; cbn beta iota zeta in H.
  rewrite Hprompt in H; cbn beta iota zeta in H.
  rewrite Hmodel in H; cbn beta iota zeta in H.
  rewrite Hclient in H; cbn beta iota zeta in H.
  rewrite buildOutputOption_unfold in H.
  destruct (attachesOutput inputs);
    [destruct (normalizeSchemaForStructuredOutput w _) as [n|];
       [|discriminate Hconstraint] |];
    inversion Hconstraint; subst constraint; clear Hconstraint;
    cbn beta iota zeta in H.
  all: repeat invoke_step H; read_state H; inversion H; subst; clear H.
  all: eexists _, _; split; [reflexivity|].
  all: split; [apply list_elem_of_In; cbn [In]; eauto 14|].
  all: split; [intros settings' q Hin; call_cases Hin; by inversion Hin|].
  all: split; [intros Hno; specialize (Hflag Hno); by subst|].
  all: intros streamResult assistantMessage text used Hs Hr Ht Hu; agree.
  all: try (intros out Hout; agree).
  all: done.
Qed.

Lemma structured_output_attached_iff_requested_witness :
  exists o calls,
    invoke Cases.happy Sample.structuredInputs (Some "app_1") = (Ok o, calls) ∧
    CallAgentStream
      (agentSettings Sample.model "You are helpful." [("search", JsNull)]
         (Some [("answer", JsString "number")])) "What is 6 x 7?" ∈ calls ∧
    success o = true ∧ output o = Some [("answer", JsNumber 42)].
Proof.
  destruct (structured_output_attached_iff_requested Cases.happy
              Sample.structuredInputs (Some "app_1") "agent_1" "What is 6 x 7?"
              Sample.liveAgent Sample.allTools "You are helpful."
              [("search", JsNull)] Sample.model
              (Some [("answer", JsString "number")])
              eq_refl eq_refl eq_refl eq_refl eq_refl eq_refl eq_refl eq_refl eq_refl)
    as (_ & o & calls & Hinvoke & Hcall & _ & _ & Hread).
  exists o, calls. split; [exact Hinvoke|]. split; [exact Hcall|].
  exact (Hread Sample.finished (Some Sample.answer) "42" Sample.tokens
           eq_refl eq_refl eq_refl eq_refl [("answer", JsNumber 42)] eq_refl).
Defined.

(** The [try] block itself never writes the diagnostic. *)
Lemma runBody_no_diagnostic (w : Collaborators) (inputs : AgentStepInputs)
    (a p : string) (appId : option string) (r : Result AgentStepOutputs)
    (st : RunState) :
  runBody w inputs a p appId (v4 w) (spanState w) = (r, st) ->
  Forall (fun c => isConsoleError c = false) (st_calls st).
Proof.
  intros H.
  unfold spanState, runBody, tryCatch, perform, annotate, logCall,
    assignEnabledTools, assignModel, modifyState, liftResult, getState,
    mbind, mret, M_bind, M_ret in H.
  cbn beta iota zeta in H.
  repeat invoke_step H.
  all: inversion H; subst; clear H.
  all: repeat (progress (cbn [st_calls initialState];
                         rewrite ?st_calls_pushCall)).
  all: cbn [app]; repeat constructor.
Qed.

(** The diagnostic record is written exactly when the [try] block threw:
    if it threw [err], the calls of the invocation are those of the block
    followed by the error annotation and one [console.error] that names the
    agent, the workspace, the backend URL, the name of [err] and its
    normalized message, which is also the response; if the block returned,
    or validation failed, no diagnostic is written. *)
Theorem diagnostic_logged_iff_caught (w : Collaborators) (inputs : AgentStepInputs)
    (appId : option string) (o : AgentStepOutputs) (calls : list Call) :
  invoke w inputs appId = (Ok o, calls) ->
  match present (agentId inputs), present (prompt inputs) with
  | Some a, Some p =>
      match runBody w inputs a p appId (v4 w) (spanState w) with
      | (Throw err, st) =>
          calls
          = st_calls st ++
            [CallAnnotate
               (AnnError (getError w err)
                  (if Js.truthy (errorName err) then errorName err
                   else JsString "UnknownError"));
             CallConsoleError a appId (LITELLM_URL w) (errorName err)
               (getError w err)] ∧
          Forall (fun c => isConsoleError c = false) (st_calls st) ∧
          response o = getError w err
      | (Ok _, st) => calls = st_calls st ∧ existsb isConsoleError calls = false
      end
  | _, _ => calls = []
  end.
Proof.
  intros H. apply invoke_run in H as (st' & Hrun & <-).
  rewrite run_unfold in Hrun.
  destruct (present (agentId inputs)) as [a|]; [|by inversion Hrun].
  destruct (present (prompt inputs)) as [p|]; [|by inversion Hrun].
  destruct (runBody w inputs a p appId (v4 w) (spanState w)) as [[o'|err] st] eqn:Hbody.
  - inversion Hrun; subst. split; [done|].
    apply runBody_no_diagnostic in Hbody.
    induction Hbody as [|c l Hc _ IH]; [done|]. simpl. by rewrite Hc.
  - rewrite onError_unfold in Hrun. inversion Hrun; subst. clear Hrun.
    split; [|split; [by eapply runBody_no_diagnostic | done]].
    rewrite !st_calls_pushCall. by rewrite <- app_assoc.
Qed.

Lemma diagnostic_logged_iff_caught_witness :
  exists o calls,
    invoke Cases.failing Sample.inputs (Some "app_1") = (Ok o, calls) ∧
    last calls
    = Some (CallConsoleError "agent_1" (Some "app_1") (Some "http://litellm:4000")
              (JsString "APICallError") "connection reset") ∧
    response o = "connection reset".
Proof.
  eexists _, _. split; [vm_compute; reflexivity|].
  pose proof (diagnostic_logged_iff_caught Cases.failing Sample.inputs (Some "app_1")
                _ _ eq_refl) as Hlog.
  vm_compute in Hlog. destruct Hlog as (Hcalls & _ & Hresponse).
  split; [reflexivity | exact Hresponse].
Defined.
